(** * Precious-metal tracker: the display update of [script.js]

    A shallow embedding of the current version of [script.js] (the second
    of the two script versions held by the source file): the global
    [metalsData] and [chart], the [DOMContentLoaded] handler,
    [updateDisplay], [updatePriceSummary] and [capitalize], together with
    the fragment of JavaScript they rely on (numbers, [undefined], array
    reads, [Date]).

    Conventions of the model.
    - A price of the dataset is a rational; a computed JavaScript number is
      a rational, an infinity or NaN.  Binary rounding, overflow and the
      sign of zero are not modelled: what is proved of sums, quotients
      and their signs is proved of exact arithmetic.
    - [toFixed] prints plain decimal digits (magnitudes below 10^21), and
      [toUpperCase] changes the letters a-z only.
    - The dataset object [metalsData.metals] is an ordinary object: a
      finite map from own keys to arrays, behind which a property read
      finds the members inherited from [Object.prototype].
    - [metalsData.start_date] is a date-only string, [YYYY-MM-DD], as in
      the examples of the specification; [new Date] reads such a string
      as midnight UTC.  The time zone of the browser is a parameter.
    - The elements the script fetches with [getElementById] exist, except
      [price-summary], whose absence the script itself tests. *)

From Stdlib Require Import ZArith QArith Qabs Qround Lia List Bool Ascii String.
From stdpp Require Import base option list strings gmap pretty.

Local Open Scope Z_scope.

(** ** JavaScript numbers and values *)

Module JS.

(** A number: finite, [Infinity] / [-Infinity] ([Inf true] is the
    negative one), or [NaN]. *)
Inductive number : Type :=
| Fin (q : Q)
| Inf (neg : bool)
| NaN.

(** A value read from an array: a number, or [undefined]. *)
Inductive value : Type :=
| VUndefined
| VNum (x : number).

Definition ToNumber (v : value) : number :=
  match v with
  | VUndefined => NaN
  | VNum x => x
  end.

(** Numeric equality of numbers ([NaN] is kept apart: it is used to
    compare results, not to model [===]). *)
Definition num_eq (x y : number) : Prop :=
  match x, y with
  | Fin p, Fin q => (p == q)%Q
  | Inf a, Inf b => a = b
  | NaN, NaN => True
  | _, _ => False
  end.

Definition Qsgn_neg (q : Q) : bool := if Qlt_le_dec q 0 then true else false.
Definition Qis_zero (q : Q) : bool := Qeq_bool q 0.

Definition neg (x : number) : number :=
  match x with
  | Fin q => Fin (- q)%Q
  | Inf s => Inf (negb s)
  | NaN => NaN
  end.

Definition add (x y : number) : number :=
  match x, y with
  | Fin p, Fin q => Fin (p + q)%Q
  | Fin _, Inf s => Inf s
  | Inf s, Fin _ => Inf s
  | Inf a, Inf b => if Bool.eqb a b then Inf a else NaN
  | _, _ => NaN
  end.

(** [x - y] *)
Definition sub (x y : number) : number :=
  match x, y with
  | Fin p, Fin q => Fin (p - q)%Q
  | _, _ => add x (neg y)
  end.

Definition mul (x y : number) : number :=
  match x, y with
  | Fin p, Fin q => Fin (p * q)%Q
  | Fin p, Inf s | Inf s, Fin p =>
      if Qis_zero p then NaN else Inf (xorb s (Qsgn_neg p))
  | Inf a, Inf b => Inf (xorb a b)
  | _, _ => NaN
  end.

(** [x / y]: a zero divisor gives an infinity, or [NaN] for [0 / 0]. *)
Definition div (x y : number) : number :=
  match x, y with
  | Fin p, Fin q =>
      if Qis_zero q then
        (if Qis_zero p then NaN else Inf (Qsgn_neg p))
      else Fin (p / q)%Q
  | Fin _, Inf _ => Fin 0
  | Inf s, Fin q => Inf (xorb s (Qsgn_neg q))
  | Inf _, Inf _ => NaN
  | _, _ => NaN
  end.

(** [x >= 0] *)
Definition ge0 (x : number) : bool :=
  match x with
  | Fin q => if Qlt_le_dec q 0 then false else true
  | Inf s => negb s
  | NaN => false
  end.

(** [v !== 0] on a value: [undefined !== 0] and [NaN !== 0] hold. *)
Definition neq0 (v : value) : bool :=
  match v with
  | VNum (Fin q) => negb (Qis_zero q)
  | _ => true
  end.

(** [Math.abs] *)
Definition abs (x : number) : number :=
  match x with
  | Fin q => Fin (Qabs q)
  | Inf _ => Inf false
  | NaN => NaN
  end.

(** [arr[i]]: the element at an index inside the array, [undefined]
    elsewhere (also at a negative index). *)
Definition index (arr : list Q) (i : Z) : value :=
  if 0 <=? i then
    match arr !! Z.to_nat i with
    | Some q => VNum (Fin q)
    | None => VUndefined
    end
  else VUndefined.

(** [arr.length] *)
Definition length (arr : list Q) : Z := Z.of_nat (List.length arr).

(** *** Number formatting *)

(** The magnitude of [q] in hundredths, rounded to nearest, ties upwards:
    the integer [n] for which [n / 100 - |q|] is closest to zero. *)
Definition hundredths (q : Q) : Z := Qfloor (Qabs q * 100 + (1 # 2))%Q.

Definition two_digits (d : Z) : string :=
  if d <? 10 then "0" +:+ pretty d else pretty d.

Definition three_digits (d : Z) : string :=
  if d <? 10 then "00" +:+ pretty d
  else if d <? 100 then "0" +:+ pretty d else pretty d.

(** [x.toFixed(2)] (for magnitudes below 10^21, where JavaScript still
    prints plain decimal digits). *)
Definition toFixed2 (x : number) : string :=
  match x with
  | NaN => "NaN"
  | Inf s => if s then "-Infinity" else "Infinity"
  | Fin q =>
      let n := hundredths q in
      (if Qsgn_neg q then "-" else "") +:+
      pretty (n / 100) +:+ "." +:+ two_digits (n mod 100)
  end.

(** Groups of two digits to the left of the last three, as the [en-IN]
    locale writes them: 1234567 is 12,34,567. *)
Fixpoint group_lakh (fuel : nat) (m : Z) : string :=
  match fuel with
  | O => pretty m
  | S fuel' =>
      if m <? 100 then pretty m
      else group_lakh fuel' (m / 100) +:+ "," +:+ two_digits (m mod 100)
  end.

Definition group_en_IN (n : Z) : string :=
  if n <? 1000 then pretty n
  else group_lakh (Z.to_nat (Z.log2 n)) (n / 1000) +:+ "," +:+
       three_digits (n mod 1000).

(** [num.toLocaleString('en-IN', { minimumFractionDigits: 2,
    maximumFractionDigits: 2 })] *)
Definition toLocaleString_en_IN_2 (x : number) : string :=
  match x with
  | NaN => "NaN"
  | Inf s => if s then "-Infinity" else "Infinity"
  | Fin q =>
      let n := hundredths q in
      (if Qsgn_neg q then "-" else "") +:+
      group_en_IN (n / 100) +:+ "." +:+ two_digits (n mod 100)
  end.

(** *** Strings *)

(** [c.toUpperCase()] on one character; only the letters a-z change. *)
Definition toUpperCase_ascii (c : ascii) : ascii :=
  let n := nat_of_ascii c in
  if (97 <=? n)%nat && (n <=? 122)%nat then ascii_of_nat (n - 32) else c.

End JS.

(** ** The [Date] object *)

Module JSDate.

Definition msPerDay : Z := 86400000.

Definition Day (t : Z) : Z := t / msPerDay.
Definition TimeWithinDay (t : Z) : Z := t mod msPerDay.

Definition DaysInYear (y : Z) : Z :=
  if negb (y mod 4 =? 0) then 365
  else if negb (y mod 100 =? 0) then 366
  else if negb (y mod 400 =? 0) then 365
  else 366.

Definition DayFromYear (y : Z) : Z :=
  365 * (y - 1970) + (y - 1969) / 4 - (y - 1901) / 100 + (y - 1601) / 400.

(** The year of a day number: the largest [y] with [DayFromYear y <= d].
    The quotient by the mean year length is off by one at most, which the
    two tests repair. *)
Definition YearFromDay (d : Z) : Z :=
  let y := 1970 + (400 * d) / 146097 in
  if d <? DayFromYear y then y - 1
  else if DayFromYear (y + 1) <=? d then y + 1
  else y.

Definition YearFromTime (t : Z) : Z := YearFromDay (Day t).

Definition InLeapYear (t : Z) : Z :=
  if DaysInYear (YearFromTime t) =? 366 then 1 else 0.

Definition DayWithinYear (t : Z) : Z := Day t - DayFromYear (YearFromTime t).

(** Days of the year before month [m] (0 is January). *)
Definition DaysBeforeMonth (m leap : Z) : Z :=
  match m with
  | 0 => 0
  | 1 => 31
  | 2 => 59 + leap
  | 3 => 90 + leap
  | 4 => 120 + leap
  | 5 => 151 + leap
  | 6 => 181 + leap
  | 7 => 212 + leap
  | 8 => 243 + leap
  | 9 => 273 + leap
  | 10 => 304 + leap
  | _ => 334 + leap
  end.

Definition MonthFromTime (t : Z) : Z :=
  let d := DayWithinYear t in
  let leap := InLeapYear t in
  if d <? 31 then 0
  else if d <? 59 + leap then 1
  else if d <? 90 + leap then 2
  else if d <? 120 + leap then 3
  else if d <? 151 + leap then 4
  else if d <? 181 + leap then 5
  else if d <? 212 + leap then 6
  else if d <? 243 + leap then 7
  else if d <? 273 + leap then 8
  else if d <? 304 + leap then 9
  else if d <? 334 + leap then 10
  else 11.

Definition DateFromTime (t : Z) : Z :=
  DayWithinYear t - DaysBeforeMonth (MonthFromTime t) (InLeapYear t) + 1.

(** [MakeDay(year, month, date)]: the day number of the first of the
    month, moved by [date - 1] days. *)
Definition MakeDay (year month date : Z) : Z :=
  let ym := year + month / 12 in
  let mn := month mod 12 in
  let leap := if DaysInYear ym =? 366 then 1 else 0 in
  DayFromYear ym + DaysBeforeMonth mn leap + date - 1.

Definition MakeDate (day time : Z) : Z := day * msPerDay + time.

(** A time zone gives the offset of local time from UTC, in
    milliseconds: [offsetUTC t] for a UTC time value (LocalTZA(t, true)),
    [offsetLocal t] for a local one (LocalTZA(t, false)). *)
Record TimeZone : Type := {
  offsetUTC : Z -> Z;
  offsetLocal : Z -> Z
}.

Definition LocalTime (tz : TimeZone) (t : Z) : Z := t + offsetUTC tz t.
Definition UTC (tz : TimeZone) (t : Z) : Z := t - offsetLocal tz t.

(** A zone without daylight saving. *)
Definition fixed_zone (offset : Z) : TimeZone :=
  {| offsetUTC := fun _ => offset; offsetLocal := fun _ => offset |}.

Definition zone_UTC : TimeZone := fixed_zone 0.
(** Asia/Kolkata, UTC+05:30. *)
Definition zone_Kolkata : TimeZone := fixed_zone 19800000.

(** A zone with one daylight-saving period, between the UTC instants
    [dst_start] and [dst_end].  A local time skipped or repeated at a
    transition is read with the offset in force before the transition. *)
Definition dst_zone (std dst dst_start dst_end : Z) : TimeZone :=
  {| offsetUTC := fun t =>
       if (dst_start <=? t) && (t <? dst_end) then dst else std;
     offsetLocal := fun t =>
       if (dst_start + dst <=? t) && (t <? dst_end + dst) then dst else std |}.

(** Europe/Berlin in 2021: UTC+1, and UTC+2 from 2021-03-28T01:00Z to
    2021-10-31T01:00Z. *)
Definition zone_Berlin_2021 : TimeZone :=
  dst_zone 3600000 7200000 1616893200000 1635642000000.

(** America/New_York in 2021: UTC-5, and UTC-4 from 2021-03-14T07:00Z to
    2021-11-07T06:00Z. *)
Definition zone_New_York_2021 : TimeZone :=
  dst_zone (-18000000) (-14400000) 1615705200000 1636264800000.

(** A date-only string [YYYY-MM-DD], by its fields ([month] is 1-12). *)
Record CalendarDate : Type := {
  year : Z;
  month : Z;
  day : Z
}.

(** [new Date("YYYY-MM-DD")]: a date-only string is read as UTC midnight.
    A [Date] is its time value, milliseconds since 1970-01-01T00:00Z. *)
Definition parse_date_only (c : CalendarDate) : Z :=
  MakeDate (MakeDay (year c) (month c - 1) (day c)) 0.

(** [date.getDate()]: the day of the month in local time. *)
Definition getDate (tz : TimeZone) (t : Z) : Z := DateFromTime (LocalTime tz t).

(** [date.setDate(dt)]: replaces the day of the month in local time and
    converts back; the new time value. *)
Definition setDate (tz : TimeZone) (t : Z) (dt : Z) : Z :=
  let lt := LocalTime tz t in
  UTC tz (MakeDate (MakeDay (YearFromTime lt) (MonthFromTime lt) dt)
                   (TimeWithinDay lt)).

Definition pad_left (width : nat) (s : string) : string :=
  Nat.iter (width - String.length s) (String "0") s.

Definition year_string (y : Z) : string :=
  if (0 <=? y) && (y <=? 9999) then pad_left 4 (pretty y)
  else (if y <? 0 then "-" else "+") +:+ pad_left 6 (pretty (Z.abs y)).

(** The calendar date of a day number, as [YYYY-MM-DD]. *)
Definition iso_of_day (d : Z) : string :=
  let t := d * msPerDay in
  year_string (YearFromTime t) +:+ "-" +:+
  pad_left 2 (pretty (MonthFromTime t + 1)) +:+ "-" +:+
  pad_left 2 (pretty (DateFromTime t)).

(** [date.toISOString().split('T')[0]]: the UTC calendar date. *)
Definition toISOString_date (t : Z) : string := iso_of_day (Day t).

End JSDate.

(** ** The page and the script *)

Module Tracker.

Import JSDate.

(** [window.METALS_DATA]: the start date shared by all metals and, when
    the property is there, the price array of each metal. *)
Record Dataset : Type := {
  start_date : CalendarDate;
  metals : option (gmap string (list Q))
}.

(** The configuration handed to [new Chart]: what depends on the data
    and on the theme. *)
Record Chart : Type := {
  labels : list string;
  dataset_label : string;
  data : list JS.value;
  lineColor : string;
  textColor : string;
  gridColor : string
}.

Record Cell : Type := {
  textContent : string;
  className : string
}.

(** A row of [#performance-body]. *)
Record Row : Type := {
  nameCell : string;
  amountCell : Cell;
  percentCell : Cell
}.

(** The three spans written into [#price-summary]. *)
Record Summary : Type := {
  current_value : string;
  change_class : string;
  change_amount : string;
  change_percent : string
}.

(** The state the script reads and writes: its two globals, the parts of
    the document it touches, the stored preference, the two listeners
    it attaches ([listening] for the [change] event of the metal
    selector, [toggle_listening] for the [click] event of the theme
    button), and what it has reported through [console.error] and
    [alert]. *)
Record Page : Type := {
  metalsData : option Dataset;
  chart : option Chart;
  dark_mode : bool;
  toggle_label : string;
  stored_dark_mode : option string;
  current_price : string;
  price_summary : option (option Summary);
  performance_body : list Row;
  listening : bool;
  toggle_listening : bool;
  console_errors : list string;
  alerts : list string
}.

Definition set_chart (c : Chart) (p : Page) : Page :=
  {| metalsData := metalsData p; chart := Some c; dark_mode := dark_mode p;
     toggle_label := toggle_label p; stored_dark_mode := stored_dark_mode p;
     current_price := current_price p; price_summary := price_summary p;
     performance_body := performance_body p; listening := listening p;
     toggle_listening := toggle_listening p;
     console_errors := console_errors p; alerts := alerts p |}.

Definition set_current_price (s : string) (p : Page) : Page :=
  {| metalsData := metalsData p; chart := chart p; dark_mode := dark_mode p;
     toggle_label := toggle_label p; stored_dark_mode := stored_dark_mode p;
     current_price := s; price_summary := price_summary p;
     performance_body := performance_body p; listening := listening p;
     toggle_listening := toggle_listening p;
     console_errors := console_errors p; alerts := alerts p |}.

Definition set_price_summary (s : Summary) (p : Page) : Page :=
  {| metalsData := metalsData p; chart := chart p; dark_mode := dark_mode p;
     toggle_label := toggle_label p; stored_dark_mode := stored_dark_mode p;
     current_price := current_price p; price_summary := Some (Some s);
     performance_body := performance_body p; listening := listening p;
     toggle_listening := toggle_listening p;
     console_errors := console_errors p; alerts := alerts p |}.

Definition set_performance_body (rows : list Row) (p : Page) : Page :=
  {| metalsData := metalsData p; chart := chart p; dark_mode := dark_mode p;
     toggle_label := toggle_label p; stored_dark_mode := stored_dark_mode p;
     current_price := current_price p; price_summary := price_summary p;
     performance_body := rows; listening := listening p;
     toggle_listening := toggle_listening p;
     console_errors := console_errors p; alerts := alerts p |}.

Definition set_theme (dark : bool) (label : string) (stored : option string)
    (p : Page) : Page :=
  {| metalsData := metalsData p; chart := chart p; dark_mode := dark;
     toggle_label := label; stored_dark_mode := stored;
     current_price := current_price p; price_summary := price_summary p;
     performance_body := performance_body p; listening := listening p;
     toggle_listening := toggle_listening p;
     console_errors := console_errors p; alerts := alerts p |}.

Definition set_listening (p : Page) : Page :=
  {| metalsData := metalsData p; chart := chart p; dark_mode := dark_mode p;
     toggle_label := toggle_label p; stored_dark_mode := stored_dark_mode p;
     current_price := current_price p; price_summary := price_summary p;
     performance_body := performance_body p; listening := true;
     toggle_listening := toggle_listening p;
     console_errors := console_errors p; alerts := alerts p |}.

Definition set_toggle_listening (p : Page) : Page :=
  {| metalsData := metalsData p; chart := chart p; dark_mode := dark_mode p;
     toggle_label := toggle_label p; stored_dark_mode := stored_dark_mode p;
     current_price := current_price p; price_summary := price_summary p;
     performance_body := performance_body p; listening := listening p;
     toggle_listening := true;
     console_errors := console_errors p; alerts := alerts p |}.

Definition report_missing_data (p : Page) : Page :=
  {| metalsData := metalsData p; chart := chart p; dark_mode := dark_mode p;
     toggle_label := toggle_label p; stored_dark_mode := stored_dark_mode p;
     current_price := current_price p; price_summary := price_summary p;
     performance_body := performance_body p; listening := listening p;
     toggle_listening := toggle_listening p;
     console_errors := console_errors p ++
       ["METALS_DATA is not defined. Ensure data.js is loaded."];
     alerts := alerts p ++
       ["Sample data not loaded. Please check your setup."] |}.

(** How a call ends: it returns, or an exception leaves it; either way
    with the page as the call left it. *)
Inductive outcome : Type :=
| Returned (p : Page)
| Threw (error : string) (p : Page).

Definition page_of (o : outcome) : Page :=
  match o with
  | Returned p => p
  | Threw _ p => p
  end.

(** *** Reading [metalsData.metals[metalName]] *)

(** The members every ordinary object inherits from [Object.prototype],
    by name, each with its [length] property: the functions have one,
    the object that [__proto__] gives has none.  None of them has an
    indexed element. *)
Definition Object_prototype (key : string) : option (option Z) :=
  match key with
  | "constructor" => Some (Some 1)
  | "hasOwnProperty" => Some (Some 1)
  | "isPrototypeOf" => Some (Some 1)
  | "propertyIsEnumerable" => Some (Some 1)
  | "toLocaleString" => Some (Some 0)
  | "toString" => Some (Some 0)
  | "valueOf" => Some (Some 0)
  | "__defineGetter__" => Some (Some 2)
  | "__defineSetter__" => Some (Some 2)
  | "__lookupGetter__" => Some (Some 1)
  | "__lookupSetter__" => Some (Some 1)
  | "__proto__" => Some None
  | _ => None
  end.

(** What the property read gives: the array of an own key, a member
    inherited from [Object.prototype] (by its [length]), or
    [undefined]. *)
Inductive property : Type :=
| OwnArray (metalSeries : list Q)
| Inherited (len : option Z)
| Undefined.

Definition getProperty (ms : gmap string (list Q)) (key : string)
    : property :=
  match ms !! key with
  | Some metalSeries => OwnArray metalSeries
  | None =>
      match Object_prototype key with
      | Some len => Inherited len
      | None => Undefined
      end
  end.

(** *** Values computed by [updateDisplay] *)

(** [const totalDays = metalSeries.length] *)
Definition totalDays (metalSeries : list Q) : Z := JS.length metalSeries.

(** [const currentPrice = metalSeries[totalDays - 1]] *)
Definition currentPrice (metalSeries : list Q) : JS.value :=
  JS.index metalSeries (totalDays metalSeries - 1).

(** The body of the chart loop for index [i]: a copy of the start date,
    moved by [i] days with [getDate] / [setDate], printed with
    [toISOString] and cut at the [T]. *)
Definition dateLabel (tz : TimeZone) (startDate : Z) (i : Z) : string :=
  let date := startDate in
  let date := setDate tz date (getDate tz date + i) in
  toISOString_date date.

(** [for (let i = ...; i < totalDays; i++)], pushing a label and a
    point per round. *)
Fixpoint chart_loop (fuel : nat) (tz : TimeZone) (startDate : Z)
    (metalSeries : list Q) (i : Z)
    (chartLabels : list string) (chartPoints : list JS.value)
    : list string * list JS.value :=
  match fuel with
  | O => (chartLabels, chartPoints)
  | S fuel' =>
      if i <? totalDays metalSeries then
        let iso := dateLabel tz startDate i in
        chart_loop fuel' tz startDate metalSeries (i + 1)
          (chartLabels ++ [iso]) (chartPoints ++ [JS.index metalSeries i])
      else (chartLabels, chartPoints)
  end.

(** The labels and the points of the last [lastNDays] days. *)
Definition chartWindow (tz : TimeZone) (startDate : Z)
    (metalSeries : list Q) (lastNDays : Z) : list string * list JS.value :=
  let startIdx := Z.max 0 (totalDays metalSeries - lastNDays) in
  chart_loop (Z.to_nat (totalDays metalSeries)) tz startDate metalSeries
    startIdx [] [].

(** The same loop when [metalSeries] is an inherited member with a
    [length] of [total]: every element read is [undefined]. *)
Fixpoint inherited_loop (fuel : nat) (tz : TimeZone) (startDate : Z)
    (total : Z) (i : Z)
    (chartLabels : list string) (chartPoints : list JS.value)
    : list string * list JS.value :=
  match fuel with
  | O => (chartLabels, chartPoints)
  | S fuel' =>
      if i <? total then
        let iso := dateLabel tz startDate i in
        inherited_loop fuel' tz startDate total (i + 1)
          (chartLabels ++ [iso]) (chartPoints ++ [JS.VUndefined])
      else (chartLabels, chartPoints)
  end.

(** Labels and points for an inherited member.  Without a [length],
    [totalDays] is [undefined] and [startIdx] is [NaN]: the test
    [i < totalDays] fails at once. *)
Definition inheritedWindow (tz : TimeZone) (startDate : Z) (len : option Z)
    (lastNDays : Z) : list string * list JS.value :=
  match len with
  | Some total =>
      let startIdx := Z.max 0 (total - lastNDays) in
      inherited_loop (Z.to_nat total) tz startDate total startIdx [] []
  | None => ([], [])
  end.

(** What a table row or the summary shows: the change of the current
    price against a reference, absolute and in percent. *)
Record DerivedMetric : Type := {
  amountChange : JS.number;
  percentChange : JS.number
}.

(** [ref !== 0 ? (amount / ref) * 100 : 0] *)
Definition percentOf (amount : JS.number) (ref : JS.value) : JS.number :=
  if JS.neq0 ref then JS.mul (JS.div amount (JS.ToNumber ref)) (JS.Fin 100)
  else JS.Fin 0.

(** [current - ref] and its percentage of [ref]. *)
Definition changeFrom (current ref : JS.value) : DerivedMetric :=
  let amount := JS.sub (JS.ToNumber current) (JS.ToNumber ref) in
  {| amountChange := amount; percentChange := percentOf amount ref |}.

Record Period : Type := {
  name : string;
  days : Z
}.

Definition periods : list Period :=
  [ {| name := "Today"; days := 1 |};
    {| name := "30 Days"; days := 30 |};
    {| name := "6 Months"; days := 180 |};
    {| name := "1 Year"; days := 365 |};
    {| name := "5 Years"; days := 365 * 5 |};
    {| name := "20 Years"; days := 365 * 20 |} ].

(** [idx >= 0 ? metalSeries[idx] : metalSeries[0]] for
    [idx = totalDays - period.days]. *)
Definition pastPrice (metalSeries : list Q) (period : Period) : JS.value :=
  let idx := totalDays metalSeries - days period in
  if 0 <=? idx then JS.index metalSeries idx else JS.index metalSeries 0.

Definition periodChange (metalSeries : list Q) (period : Period)
    : DerivedMetric :=
  changeFrom (currentPrice metalSeries) (pastPrice metalSeries period).

(** The spec's [periodChanges]: one entry per period, in order. *)
Definition periodChanges (metalSeries : list Q) (ps : list Period)
    : list (string * DerivedMetric) :=
  map (fun period => (name period, periodChange metalSeries period)) ps.

(** [for (let i = ...; i < totalDays; i++) sum += metalSeries[i]] *)
Fixpoint sum_loop (fuel : nat) (metalSeries : list Q) (i : Z)
    (sum : JS.number) : JS.number :=
  match fuel with
  | O => sum
  | S fuel' =>
      if i <? totalDays metalSeries then
        sum_loop fuel' metalSeries (i + 1)
          (JS.add sum (JS.ToNumber (JS.index metalSeries i)))
      else sum
  end.

(** The average of the last [Math.min(maxLookback, totalDays)] prices. *)
Definition movingAverage (metalSeries : list Q) (maxLookback : Z)
    : JS.number :=
  let lookback := Z.min maxLookback (totalDays metalSeries) in
  let sum :=
    sum_loop (Z.to_nat (totalDays metalSeries)) metalSeries
      (totalDays metalSeries - lookback) (JS.Fin 0) in
  JS.div sum (JS.Fin (inject_Z lookback)).

(** [diff] and [pctDiff] of the moving-average row. *)
Definition movingAverageDeviation (metalSeries : list Q) (maxLookback : Z)
    : DerivedMetric :=
  changeFrom (currentPrice metalSeries)
    (JS.VNum (movingAverage metalSeries maxLookback)).

(** [totalDays >= 2 ? metalSeries[totalDays - 2] : currentPrice] *)
Definition prevPrice (metalSeries : list Q) : JS.value :=
  if 2 <=? totalDays metalSeries
  then JS.index metalSeries (totalDays metalSeries - 2)
  else currentPrice metalSeries.

(** [diff] and [pctDiff] of [updatePriceSummary], as [updateDisplay]
    calls it. *)
Definition dayChange (metalSeries : list Q) : DerivedMetric :=
  changeFrom (currentPrice metalSeries) (prevPrice metalSeries).

(** *** Rendering *)

(** [x >= 0 ? 'positive' : 'negative'] *)
Definition signClass (x : JS.number) : string :=
  if JS.ge0 x then "positive" else "negative".

(** [`${x >= 0 ? '+' : ''}${x.toFixed(2)}`] *)
Definition signedFixed (x : JS.number) : string :=
  (if JS.ge0 x then "+" else "") +:+ JS.toFixed2 x.

(** The [tr] built for a metric. *)
Definition performanceRow (label : string) (m : DerivedMetric) : Row :=
  {| nameCell := label;
     amountCell := {| textContent := signedFixed (amountChange m);
                      className := signClass (amountChange m) |};
     percentCell := {| textContent := signedFixed (percentChange m) +:+ "%";
                       className := signClass (percentChange m) |} |}.

(** [str.charAt(0).toUpperCase() + str.slice(1)] *)
Definition capitalize (str : string) : string :=
  match str with
  | EmptyString => EmptyString
  | String c rest => String (JS.toUpperCase_ascii c) rest
  end.

(** The spans [updatePriceSummary] writes for a current price and its
    change [diff], [pctDiff]: both [change] spans take their class from
    the sign of [diff]. *)
Definition summaryOf (currentPrice : JS.value) (m : DerivedMetric) : Summary :=
  let diff := amountChange m in
  let pctDiff := percentChange m in
  let isPositive := JS.ge0 diff in
  let arrow := if isPositive then "▲" else "▼" in
  let currentFormatted :=
    JS.toLocaleString_en_IN_2 (JS.ToNumber currentPrice) in
  let diffFormatted := JS.toLocaleString_en_IN_2 (JS.abs diff) in
  let pctFormatted := signedFixed pctDiff +:+ "%" in
  {| current_value := "INR " +:+ currentFormatted;
     change_class := if isPositive then "positive" else "negative";
     change_amount := arrow +:+ " " +:+ diffFormatted;
     change_percent := pctFormatted |}.

Definition updatePriceSummary (p : Page) (metalName : string)
    (currentPrice prevPrice : JS.value) : Page :=
  match price_summary p with
  | None => p
  | Some _ =>
      set_price_summary
        (summaryOf currentPrice (changeFrom currentPrice prevPrice)) p
  end.

Definition new_chart (isDark : bool) (metalName : string)
    (chartLabels : list string) (chartPoints : list JS.value) : Chart :=
  let axisColor := if isDark then "#e2e8f0" else "#333" in
  {| labels := chartLabels;
     dataset_label := capitalize metalName +:+ " price (INR)";
     data := chartPoints;
     lineColor := if isDark then "#f87171" else "#d32f2f";
     textColor := axisColor;
     gridColor := if isDark then "#334155" else "#e0e0e0" |}.

(** The rows of the table: one per period, then the 50-day moving
    average when there is a price at all. *)
Definition performanceRows (metalSeries : list Q) : list Row :=
  map (fun period =>
         performanceRow (name period) (periodChange metalSeries period))
      periods
  ++ (if 0 <? totalDays metalSeries
      then [performanceRow "50 DMA" (movingAverageDeviation metalSeries 50)]
      else []).

(** *** [updateDisplay] *)

Definition updateDisplay (tz : TimeZone) (p : Page) (metalName : string)
    : outcome :=
  match metalsData p with
  | None => Returned p
  | Some md =>
  match metals md with
  | None => Returned p
  | Some ms =>
  match getProperty ms metalName with
  | Undefined => Returned p
  | Inherited len =>
      (* a truthy member without indexed elements: [currentPrice] is
         [undefined], the chart is drawn, and [toFixed] fails *)
      let startDate := parse_date_only (start_date md) in
      let '(chartLabels, chartPoints) :=
        inheritedWindow tz startDate len 30 in
      let p :=
        set_chart (new_chart (dark_mode p) metalName chartLabels chartPoints)
          p in
      Threw "TypeError: Cannot read properties of undefined" p
  | OwnArray metalSeries =>
      let startDate := parse_date_only (start_date md) in
      let '(chartLabels, chartPoints) :=
        chartWindow tz startDate metalSeries 30 in
      let p :=
        set_chart (new_chart (dark_mode p) metalName chartLabels chartPoints)
          p in
      match currentPrice metalSeries with
      | JS.VUndefined =>
          Threw "TypeError: Cannot read properties of undefined" p
      | JS.VNum x =>
          let p :=
            set_current_price ("Current Price: INR " +:+ JS.toFixed2 x) p in
          let p :=
            updatePriceSummary p metalName (currentPrice metalSeries)
              (prevPrice metalSeries) in
          Returned (set_performance_body (performanceRows metalSeries) p)
      end
  end end end.

(** *** Page load and the theme *)

(** The no-break space U+00A0 of the button labels, in UTF-8. *)
Definition nbsp : string :=
  String (ascii_of_nat 194) (String (ascii_of_nat 160) EmptyString).

Definition lightModeLabel : string := "☀️ Light" +:+ nbsp +:+ "Mode".
Definition darkModeLabel : string := "🌙 Dark" +:+ nbsp +:+ "Mode".

Definition initInterface (tz : TimeZone) (p : Page) (selected : string)
    : outcome :=
  updateDisplay tz (set_listening p) selected.

(** [initDarkMode]: applies a stored dark theme, then attaches the click
    listener of the theme button. *)
Definition initDarkMode (p : Page) : Page :=
  let p :=
    match stored_dark_mode p with
    | Some "true" => set_theme true lightModeLabel (stored_dark_mode p) p
    | _ => p
    end in
  set_toggle_listening p.

(** The click handler of the theme button. *)
Definition toggleDarkMode (tz : TimeZone) (p : Page) (selected : string)
    : outcome :=
  let enabled := negb (dark_mode p) in
  let p :=
    set_theme enabled
      (if enabled then lightModeLabel else darkModeLabel)
      (Some (if enabled then "true" else "false")) p in
  updateDisplay tz p selected.

(** A click on the theme button: the handler runs if it was attached. *)
Definition clickToggle (tz : TimeZone) (p : Page) (selected : string)
    : outcome :=
  if toggle_listening p then toggleDarkMode tz p selected else Returned p.

(** A change of the metal selector to [selected]: its handler runs if
    it was attached. *)
Definition changeMetal (tz : TimeZone) (p : Page) (selected : string)
    : outcome :=
  if listening p then updateDisplay tz p selected else Returned p.

(** The [DOMContentLoaded] handler; [selected] is the value of the
    [metal-select] control. *)
Definition onDOMContentLoaded (tz : TimeZone) (p : Page) (selected : string)
    : outcome :=
  match metalsData p with
  | None => Returned (report_missing_data p)
  | Some _ =>
      match initInterface tz p selected with
      | Returned p => Returned (initDarkMode p)
      | Threw e p => Threw e p
      end
  end.

End Tracker.

(** ** The first version of the script *)

(** [script.js] also holds the earlier version of the script, ahead of
    the current one: the same guards, chart window and period rows, with fixed
    colours, no price summary, no moving-average row and no theme. *)
Module Legacy.

Import JSDate Tracker.

Definition new_chart (metalName : string)
    (chartLabels : list string) (chartPoints : list JS.value) : Chart :=
  {| labels := chartLabels;
     dataset_label := capitalize metalName +:+ " price (INR)";
     data := chartPoints;
     lineColor := "#d32f2f";
     textColor := "#333";
     gridColor := "#e0e0e0" |}.

Definition updateDisplay (tz : TimeZone) (p : Page) (metalName : string)
    : outcome :=
  match metalsData p with
  | None => Returned p
  | Some md =>
  match metals md with
  | None => Returned p
  | Some ms =>
  match getProperty ms metalName with
  | Undefined => Returned p
  | Inherited len =>
      let startDate := parse_date_only (start_date md) in
      let '(chartLabels, chartPoints) :=
        inheritedWindow tz startDate len 30 in
      let p := set_chart (new_chart metalName chartLabels chartPoints) p in
      Threw "TypeError: Cannot read properties of undefined" p
  | OwnArray metalSeries =>
      let startDate := parse_date_only (start_date md) in
      let '(chartLabels, chartPoints) :=
        chartWindow tz startDate metalSeries 30 in
      let p := set_chart (new_chart metalName chartLabels chartPoints) p in
      match currentPrice metalSeries with
      | JS.VUndefined =>
          Threw "TypeError: Cannot read properties of undefined" p
      | JS.VNum x =>
          let p :=
            set_current_price ("Current Price: INR " +:+ JS.toFixed2 x) p in
          Returned
            (set_performance_body
               (map (fun period =>
                       performanceRow (name period)
                         (periodChange metalSeries period))
                    periods) p)
      end
  end end end.

End Legacy.

(** ** Notions used to state the properties *)

Module Props.

Import JSDate Tracker.

(** The sum and the arithmetic mean of a list of prices. *)
Definition Qsum (l : list Q) : Q := foldr Qplus 0%Q l.

Definition mean (l : list Q) : Q :=
  (Qsum l / inject_Z (Z.of_nat (List.length l)))%Q.

(** The most recent [k] prices of a series. *)
Definition lastN (k : Z) (l : list Q) : list Q :=
  drop (Z.to_nat (JS.length l - k)) l.

(** A price as the value an array read gives. *)
Definition price (q : Q) : JS.value := JS.VNum (JS.Fin q).

(** The metric of a current price [cur] against a reference [ref], as
    the data model defines it. *)
Definition metricOf (cur ref : Q) : DerivedMetric :=
  {| amountChange := JS.Fin (cur - ref)%Q;
     percentChange :=
       if Qeq_bool ref 0 then JS.Fin 0
       else JS.Fin ((cur - ref) / ref * 100)%Q |}.

(** [x >= 0] as a proposition. *)
Definition num_ge0 (x : JS.number) : Prop :=
  match x with
  | JS.Fin q => (0 <= q)%Q
  | JS.Inf s => s = false
  | JS.NaN => False
  end.

(** The dataset of page [p] has a price array under [name]. *)
Definition series_of (p : Page) (metalName : string) : option (list Q) :=
  md ← metalsData p; ms ← metals md; ms !! metalName.

(** What [metalsData.metals[metalName]] gives on page [p], when both
    guards of [updateDisplay] let the read happen. *)
Definition member_of (p : Page) (metalName : string) : option property :=
  md ← metalsData p; ms ← metals md; Some (getProperty ms metalName).

(** What a caller of [updateDisplay] can tell from a call: the exception
    if one was thrown, and everything in the page but the dataset. *)
Definition thrown (o : outcome) : option string :=
  match o with
  | Returned _ => None
  | Threw e _ => Some e
  end.

Definition visible (p : Page) :=
  (chart p, dark_mode p, toggle_label p, stored_dark_mode p,
   current_price p, price_summary p, performance_body p, listening p,
   toggle_listening p, console_errors p, alerts p).

Definition observation (o : outcome) := (thrown o, visible (page_of o)).

(** No price of the series is negative. *)
Definition nonneg_prices (l : list Q) : Prop := Forall (fun q => 0 <= q)%Q l.

(** Every price of the series lies between [lo] and [hi]. *)
Definition prices_within (lo hi : Q) (l : list Q) : Prop :=
  Forall (fun q => lo <= q /\ q <= hi)%Q l.

(** The names of the rows of a table. *)
Definition rowNames (rows : list Row) : list string := nameCell <$> rows.

(** What the page shows of a metal: chart, current price, table and
    summary. *)
Definition display (p : Page) :=
  (chart p, current_price p, performance_body p, price_summary p).

(** The colours of a chart. *)
Definition colours (c : Chart) : string * string * string :=
  (lineColor c, textColor c, gridColor c).

End Props.

(** ** Sample data *)

Module Samples.

Import JSDate Tracker.

Definition jan_2020 : CalendarDate := {| year := 2020; month := 1; day := 1 |}.
Definition jan_2021 : CalendarDate := {| year := 2021; month := 1; day := 1 |}.

Definition gold : list Q := [100; 102; 98; 105]%Q.

Definition sample_metals : gmap string (list Q) :=
  <["gold" := gold]> (<["tin" := []]> ∅).

Definition sample_data : Dataset :=
  {| start_date := jan_2020; metals := Some sample_metals |}.

(** A page before the script has run, with and without the dataset. *)
Definition blank_page (d : option Dataset) : Page :=
  {| metalsData := d; chart := None; dark_mode := false;
     toggle_label := darkModeLabel; stored_dark_mode := None;
     current_price := ""; price_summary := Some None;
     performance_body := []; listening := false;
     toggle_listening := false;
     console_errors := []; alerts := [] |}.

Definition loaded_page : Page := blank_page (Some sample_data).
Definition unset_page : Page := blank_page None.

(** A dataset that has a start date and no map of metals. *)
Definition no_metals_page : Page :=
  blank_page (Some {| start_date := jan_2020; metals := None |}).

(** 101 days of a constant price, from 2021-01-01. *)
Definition flat_101 : list Q := repeat 50%Q 101.

Definition flat_data : Dataset :=
  {| start_date := jan_2021; metals := Some (<["gold" := flat_101]> ∅) |}.

Definition flat_page : Page := blank_page (Some flat_data).

(** Ten days of prices, and a look-back of a year. *)
Definition ten_days : list Q := [1; 2; 3; 4; 5; 6; 7; 8; 9; 10]%Q.
Definition one_year : Period := {| name := "1 Year"; days := 365 |}.
Definition today : Period := {| name := "Today"; days := 1 |}.

Definition five_days : list Q := [10; 20; 30; 40; 50]%Q.

(** Prices around zero, with zero the price before the last. *)
Definition around_zero : list Q := [-5; 0; 5]%Q.
Definition two_days : Period := {| name := "2 Days"; days := 2 |}.

(** The sample page as the document is before the script runs, with a
    dark theme stored by an earlier visit. *)
Definition returning_page : Page :=
  {| metalsData := Some sample_data; chart := None; dark_mode := false;
     toggle_label := darkModeLabel; stored_dark_mode := Some "true";
     current_price := ""; price_summary := Some None;
     performance_body := []; listening := false;
     toggle_listening := false;
     console_errors := []; alerts := [] |}.

(** The sample page once the page-load handler has run with the
    selector on gold. *)
Definition ready_page : Page :=
  page_of (onDOMContentLoaded zone_Kolkata loaded_page "gold").

(** Three days of one price. *)
Definition steady : list Q := [70; 70; 70]%Q.

Definition five_years : Period := {| name := "5 Years"; days := 365 * 5 |}.

End Samples.

Import JSDate Tracker Props Samples.

(** ** Array reads and the two loops *)

Section Arrays.

Variable metalSeries : list Q.

Lemma index_in_range (i : Z) (q : Q) :
  0 <= i -> metalSeries !! Z.to_nat i = Some q ->
  JS.index metalSeries i = price q.
Proof.
  intros Hi Hq. unfold JS.index.
  destruct (Z.leb_spec 0 i); [|lia]. now rewrite Hq.
Qed.

Lemma index_defined (i : Z) :
  0 <= i < totalDays metalSeries ->
  exists q, metalSeries !! Z.to_nat i = Some q /\
            JS.index metalSeries i = price q.
Proof.
  intros Hi. unfold totalDays, JS.length in Hi.
  destruct (lookup_lt_is_Some_2 metalSeries (Z.to_nat i)) as [q Hq]; [lia|].
  exists q. split; [exact Hq | now apply index_in_range].
Qed.

Lemma index_outside (i : Z) :
  i < 0 \/ totalDays metalSeries <= i ->
  JS.index metalSeries i = JS.VUndefined.
Proof.
  intros Hi. unfold JS.index, totalDays, JS.length in *.
  destruct (Z.leb_spec 0 i); [|reflexivity].
  rewrite lookup_ge_None_2; [reflexivity | lia].
Qed.

Lemma totalDays_pos : metalSeries <> [] -> 1 <= totalDays metalSeries.
Proof.
  unfold totalDays, JS.length. destruct metalSeries; [congruence|].
  intros _. simpl List.length. lia.
Qed.

(** Reading the indices from [a] on gives the series without its first
    [a] elements. *)
Lemma index_seqZ (a : Z) :
  0 <= a <= totalDays metalSeries ->
  JS.index metalSeries <$> seqZ a (totalDays metalSeries - a) =
  price <$> drop (Z.to_nat a) metalSeries.
Proof.
  intros Ha. apply list_eq. intros k.
  rewrite !list_lookup_fmap, lookup_drop.
  destruct (decide (Z.of_nat k < totalDays metalSeries - a)) as [Hk|Hk].
  - rewrite lookup_seqZ_lt by lia. simpl.
    destruct (index_defined (a + Z.of_nat k)) as (q & Hq & Hi); [lia|].
    rewrite Hi. replace (Z.to_nat a + k)%nat with (Z.to_nat (a + Z.of_nat k))
      by lia.
    now rewrite Hq.
  - rewrite lookup_seqZ_ge by lia. simpl.
    rewrite lookup_ge_None_2; [reflexivity|].
    unfold totalDays, JS.length in *. lia.
Qed.

(** The chart loop, started with enough fuel, visits every index from
    [i] to the last one and stops there. *)
Lemma chart_loop_spec (tz : TimeZone) (startDate : Z) (fuel : nat) :
  forall (i : Z) (chartLabels : list string) (chartPoints : list JS.value),
    totalDays metalSeries - i <= Z.of_nat fuel ->
    chart_loop fuel tz startDate metalSeries i chartLabels chartPoints =
    (chartLabels ++
       (dateLabel tz startDate <$> seqZ i (totalDays metalSeries - i)),
     chartPoints ++
       (JS.index metalSeries <$> seqZ i (totalDays metalSeries - i))).
Proof.
  induction fuel as [|fuel IH]; intros i ls ps Hfuel; simpl.
  - rewrite seqZ_nil by lia. simpl. now rewrite !app_nil_r.
  - destruct (Z.ltb_spec i (totalDays metalSeries)) as [Hlt|Hge].
    + rewrite IH by lia.
      replace (totalDays metalSeries - i)
        with (Z.succ (totalDays metalSeries - (i + 1))) by lia.
      rewrite (seqZ_cons i) by lia. simpl.
      replace (Z.pred (Z.succ (totalDays metalSeries - (i + 1))))
        with (totalDays metalSeries - (i + 1)) by lia.
      replace (Z.succ i) with (i + 1) by lia.
      now rewrite <- !app_assoc.
    + rewrite seqZ_nil by lia. simpl. now rewrite !app_nil_r.
Qed.

(** The summing loop, started with enough fuel on a finite sum, adds the
    prices from index [i] on. *)
Lemma sum_loop_spec (fuel : nat) :
  forall (i : Z) (acc : Q),
    0 <= i -> totalDays metalSeries - i <= Z.of_nat fuel ->
    exists r, sum_loop fuel metalSeries i (JS.Fin acc) = JS.Fin r /\
              (r == acc + Qsum (drop (Z.to_nat i) metalSeries))%Q.
Proof.
  induction fuel as [|fuel IH]; intros i acc Hi Hfuel; simpl.
  - exists acc. split; [reflexivity|].
    rewrite drop_ge by (unfold totalDays, JS.length in *; lia).
    simpl. ring.
  - destruct (Z.ltb_spec i (totalDays metalSeries)) as [Hlt|Hge].
    + destruct (index_defined i) as (q & Hq & Hidx); [lia|].
      rewrite Hidx. simpl.
      destruct (IH (i + 1) (acc + q)%Q) as (r & Hr & Heq); [lia|lia|].
      exists r. split; [exact Hr|].
      rewrite Heq. rewrite (drop_S _ _ _ Hq).
      replace (Z.to_nat (i + 1)) with (S (Z.to_nat i)) by lia.
      simpl. ring.
    + exists acc. split; [reflexivity|].
      rewrite drop_ge by (unfold totalDays, JS.length in *; lia).
      simpl. ring.
Qed.

End Arrays.

(** ** Metrics on prices that are there *)

Lemma changeFrom_prices (cur ref : Q) :
  changeFrom (price cur) (price ref) = metricOf cur ref.
Proof.
  unfold changeFrom, metricOf, percentOf, price. simpl.
  unfold JS.Qis_zero. destruct (Qeq_bool ref 0); reflexivity.
Qed.

Lemma currentPrice_defined (metalSeries : list Q) :
  metalSeries <> [] ->
  exists cur, metalSeries !! Z.to_nat (totalDays metalSeries - 1) = Some cur /\
              currentPrice metalSeries = price cur.
Proof.
  intros Hne. pose proof (totalDays_pos _ Hne).
  apply index_defined. lia.
Qed.

Lemma metricOf_same (cur : Q) :
  JS.num_eq (amountChange (metricOf cur cur)) (JS.Fin 0) /\
  JS.num_eq (percentChange (metricOf cur cur)) (JS.Fin 0).
Proof.
  unfold metricOf. simpl. split; [ring|].
  destruct (Qeq_bool cur 0); simpl; [reflexivity|].
  unfold Qdiv. setoid_replace (cur - cur)%Q with 0%Q using relation Qeq by ring. ring.
Qed.

Lemma ge0_spec (x : JS.number) : JS.ge0 x = true <-> num_ge0 x.
Proof.
  destruct x as [q|s|]; simpl.
  - destruct (Qlt_le_dec q 0) as [Hlt|Hle]; split; intros H;
      try congruence; try assumption.
    exfalso. exact (Qlt_not_le _ _ Hlt H).
  - destruct s; simpl; split; congruence.
  - split; [congruence | tauto].
Qed.

Lemma signClass_spec (x : JS.number) :
  (signClass x = "positive" <-> num_ge0 x) /\
  (signClass x = "negative" <-> ~ num_ge0 x).
Proof.
  rewrite <- ge0_spec. unfold signClass.
  destruct (JS.ge0 x); repeat split; intros H; try reflexivity;
    try discriminate; try congruence.
Qed.

Lemma num_ge0_zero (x : JS.number) : JS.num_eq x (JS.Fin 0) -> num_ge0 x.
Proof.
  destruct x as [q|s|]; simpl; try tauto.
  intros ->. apply Qle_refl.
Qed.

(** A number equal to zero is printed as an unsigned [0.00]. *)
Lemma toFixed2_zero (q : Q) : (q == 0)%Q -> JS.toFixed2 (JS.Fin q) = "0.00".
Proof.
  intros Hq. unfold JS.toFixed2, JS.hundredths, JS.Qsgn_neg.
  destruct (Qlt_le_dec q 0) as [Hlt|_].
  - rewrite Hq in Hlt. discriminate.
  - assert (Hfl : Qfloor (Qabs q * 100 + (1 # 2)) = 0).
    { rewrite Hq. reflexivity. }
    rewrite Hfl. reflexivity.
Qed.

Lemma signedFixed_zero (x : JS.number) :
  JS.num_eq x (JS.Fin 0) -> signedFixed x = "+0.00".
Proof.
  destruct x as [q|s|]; simpl; try tauto.
  intros Hq. unfold signedFixed.
  rewrite (toFixed2_zero _ Hq).
  assert (Hge : JS.ge0 (JS.Fin q) = true)
    by (apply ge0_spec; simpl; rewrite Hq; apply Qle_refl).
  now rewrite Hge.
Qed.

(** ** Calendar arithmetic *)

(** Case analysis on every test of the goal. *)
Ltac case_tests :=
  repeat match goal with
         | |- context [Z.eqb ?a ?b] => destruct (Z.eqb_spec a b)
         | |- context [Z.ltb ?a ?b] => destruct (Z.ltb_spec a b)
         end.

Lemma MonthFromTime_range (t : Z) : 0 <= MonthFromTime t <= 11.
Proof. unfold MonthFromTime. case_tests; lia. Qed.

(** The year found for a day number is the one the day falls in. *)
Lemma YearFromDay_spec (d : Z) :
  DayFromYear (YearFromDay d) <= d < DayFromYear (YearFromDay d + 1).
Proof.
  unfold YearFromDay.
  destruct (Z.ltb_spec d (DayFromYear (1970 + 400 * d / 146097))) as [H1|H1];
    [|destruct (Z.leb_spec (DayFromYear (1970 + 400 * d / 146097 + 1)) d)
        as [H2|H2]];
    unfold DayFromYear in *; Z.div_mod_to_equations; lia.
Qed.

(** Building the day from the year and month of a time, with its day of
    the month moved by [i], lands [i] days from the day of that time. *)
Lemma MakeDay_shift (t i : Z) :
  MakeDay (YearFromTime t) (MonthFromTime t) (DateFromTime t + i) = Day t + i.
Proof.
  pose proof (MonthFromTime_range t) as Hm.
  unfold MakeDay.
  rewrite Z.div_small, Z.mod_small, Z.add_0_r by lia.
  unfold DateFromTime, DayWithinYear, InLeapYear. lia.
Qed.

Lemma DaysInYear_step (y : Z) :
  DayFromYear (y + 1) = DayFromYear y + DaysInYear y.
Proof.
  unfold DayFromYear, DaysInYear.
  case_tests; simpl; Z.div_mod_to_equations; lia.
Qed.

Lemma DayWithinYear_range (t : Z) :
  0 <= DayWithinYear t < DaysInYear (YearFromTime t).
Proof.
  unfold DayWithinYear, YearFromTime.
  pose proof (YearFromDay_spec (Day t)) as H.
  rewrite DaysInYear_step in H. lia.
Qed.

(** The day of the month is a day of that month. *)
Lemma DateFromTime_range (t : Z) : 1 <= DateFromTime t <= 31.
Proof.
  pose proof (DayWithinYear_range t) as H.
  unfold DateFromTime, MonthFromTime, InLeapYear in *.
  destruct (Z.eqb_spec (DaysInYear (YearFromTime t)) 366) as [E|E].
  - rewrite E in H. case_tests; simpl; lia.
  - assert (DaysInYear (YearFromTime t) = 365)
      by (revert E; unfold DaysInYear; case_tests; simpl; lia).
    case_tests; simpl; lia.
Qed.

Lemma Day_shift (t i : Z) : Day (t + i * msPerDay) = Day t + i.
Proof. unfold Day, msPerDay. now rewrite Z.div_add by lia. Qed.

(** Where the offset from UTC never changes, [setDate] after [getDate]
    moves the time value by whole days. *)
Lemma setDate_fixed_zone (offset t i : Z) :
  setDate (fixed_zone offset) t (getDate (fixed_zone offset) t + i) =
  t + i * msPerDay.
Proof.
  unfold setDate, getDate, UTC, LocalTime. simpl.
  rewrite MakeDay_shift. unfold MakeDate, Day, TimeWithinDay.
  pose proof (Z.div_mod (t + offset) msPerDay). unfold msPerDay in *. lia.
Qed.

Lemma dateLabel_fixed_zone (offset t i : Z) :
  dateLabel (fixed_zone offset) t i = iso_of_day (Day t + i).
Proof.
  unfold dateLabel. rewrite setDate_fixed_zone.
  unfold toISOString_date. now rewrite Day_shift.
Qed.

Lemma Day_parse_date_only (c : CalendarDate) :
  Day (parse_date_only c) = MakeDay (year c) (month c - 1) (day c).
Proof.
  unfold parse_date_only, MakeDate, Day, msPerDay.
  rewrite Z.add_0_r. now rewrite Z.div_mul by lia.
Qed.

(** ** Period changes *)

Lemma pastPrice_defined (metalSeries : list Q) (period : Period) :
  metalSeries <> [] -> 1 <= days period ->
  exists ref,
    pastPrice metalSeries period = price ref /\
    (0 <= totalDays metalSeries - days period ->
     metalSeries !! Z.to_nat (totalDays metalSeries - days period) = Some ref) /\
    (totalDays metalSeries - days period < 0 ->
     metalSeries !! 0%nat = Some ref).
Proof.
  intros Hne Hd. pose proof (totalDays_pos _ Hne) as Hn.
  unfold pastPrice.
  destruct (Z.leb_spec 0 (totalDays metalSeries - days period)) as [Hi|Hi].
  - destruct (index_defined metalSeries (totalDays metalSeries - days period))
      as (ref & Href & Hidx); [lia|].
    exists ref. repeat split; [exact Hidx | intros _; exact Href | lia].
  - destruct (index_defined metalSeries 0) as (ref & Href & Hidx); [lia|].
    exists ref. repeat split; [exact Hidx | lia | intros _; exact Href].
Qed.


(** A period of one day measures the last price against itself. *)
Lemma periodChange_one_day (metalSeries : list Q) (period : Period) :
  metalSeries <> [] ->
  days period = 1 ->
  exists cur,
    metalSeries !! Z.to_nat (totalDays metalSeries - 1) = Some cur /\
    currentPrice metalSeries = price cur /\
    pastPrice metalSeries period = price cur /\
    periodChange metalSeries period = metricOf cur cur.
Proof.
  intros Hne Hd. pose proof (totalDays_pos _ Hne) as Hn.
  destruct (currentPrice_defined _ Hne) as (cur & Hcur & Hcp).
  assert (Hpast : pastPrice metalSeries period = price cur).
  { unfold pastPrice. rewrite Hd.
    destruct (Z.leb_spec 0 (totalDays metalSeries - 1)); [exact Hcp | lia]. }
  exists cur. repeat split; try assumption.
  unfold periodChange. now rewrite Hcp, Hpast, changeFrom_prices.
Qed.

(** The row of a metric whose amount and percentage are zero. *)
Lemma performanceRow_zero (label : string) (m : DerivedMetric) :
  JS.num_eq (amountChange m) (JS.Fin 0) ->
  JS.num_eq (percentChange m) (JS.Fin 0) ->
  performanceRow label m =
  {| nameCell := label;
     amountCell := {| textContent := "+0.00"; className := "positive" |};
     percentCell := {| textContent := "+0.00%"; className := "positive" |} |}.
Proof.
  intros Ha Hp. unfold performanceRow, signClass.
  rewrite (signedFixed_zero _ Ha), (signedFixed_zero _ Hp).
  rewrite (proj2 (ge0_spec _) (num_ge0_zero _ Ha)).
  now rewrite (proj2 (ge0_spec _) (num_ge0_zero _ Hp)).
Qed.

(** C9. For a non-empty series a period of one day takes the last price
    itself as its reference, so its row shows a change of zero, printed
    as a gain: the first row of the table, [Today], is such a row.  The
    day-over-day summary, which compares with the price before the last,
    shows another amount whenever the two differ. *)
Theorem C9_today_row_is_zero (metalSeries : list Q) (period : Period) :
  metalSeries <> [] ->
  days period = 1 ->
  exists cur,
    metalSeries !! Z.to_nat (totalDays metalSeries - 1) = Some cur /\
    pastPrice metalSeries period = price cur /\
    periodChange metalSeries period = metricOf cur cur /\
    JS.num_eq (amountChange (periodChange metalSeries period)) (JS.Fin 0) /\
    JS.num_eq (percentChange (periodChange metalSeries period)) (JS.Fin 0) /\
    performanceRow (name period) (periodChange metalSeries period) =
      {| nameCell := name period;
         amountCell := {| textContent := "+0.00"; className := "positive" |};
         percentCell := {| textContent := "+0.00%"; className := "positive" |}
      |} /\
    head (performanceRows metalSeries) =
      Some {| nameCell := "Today";
              amountCell :=
                {| textContent := "+0.00"; className := "positive" |};
              percentCell :=
                {| textContent := "+0.00%"; className := "positive" |} |} /\
    (forall prev,
        2 <= totalDays metalSeries ->
        metalSeries !! Z.to_nat (totalDays metalSeries - 2) = Some prev ->
        ~ (cur == prev)%Q ->
        dayChange metalSeries = metricOf cur prev /\
        ~ JS.num_eq (amountChange (dayChange metalSeries))
                    (amountChange (periodChange metalSeries period))).
Proof.
  intros Hne Hd.
  destruct (periodChange_one_day _ period Hne Hd)
    as (cur & Hcur & Hcp & Hpast & Hpc).
  destruct (metricOf_same cur) as [Ha Hp].
  exists cur. rewrite Hpc.
  repeat split; try assumption.
  - now apply performanceRow_zero.
  - destruct (periodChange_one_day _ {| name := "Today"; days := 1 |}
                Hne eq_refl) as (cur' & _ & _ & _ & Hpc').
    destruct (metricOf_same cur') as [Ha' Hp'].
    unfold performanceRows, periods. simpl. rewrite Hpc'.
    now rewrite (performanceRow_zero _ _ Ha' Hp').
  - unfold dayChange, prevPrice.
    destruct (Z.leb_spec 2 (totalDays metalSeries)); [|lia].
    rewrite (index_in_range _ _ prev) by (assumption || lia).
    now rewrite Hcp, changeFrom_prices.
  - unfold dayChange, prevPrice.
    destruct (Z.leb_spec 2 (totalDays metalSeries)); [|lia].
    rewrite (index_in_range _ _ prev) by (assumption || lia).
    rewrite Hcp, changeFrom_prices. simpl. intros Heq.
    match goal with Hne' : ~ (cur == prev)%Q |- _ => apply Hne' end.
    apply Qplus_inj_r with (z := (- prev)%Q).
    rewrite Qplus_opp_r. unfold Qminus in Heq. rewrite Heq. ring.
Qed.

(** ** The chart window *)

Lemma chartWindow_spec (tz : TimeZone) (startDate : Z) (metalSeries : list Q)
    (lastNDays : Z) :
  0 <= lastNDays ->
  chartWindow tz startDate metalSeries lastNDays =
  (dateLabel tz startDate <$>
     seqZ (Z.max 0 (totalDays metalSeries - lastNDays))
          (Z.min (totalDays metalSeries) lastNDays),
   price <$> lastN (Z.min (totalDays metalSeries) lastNDays) metalSeries).
Proof.
  intros Hw. unfold chartWindow, lastN.
  assert (Hn : 0 <= totalDays metalSeries)
    by (unfold totalDays, JS.length; lia).
  rewrite chart_loop_spec by lia. simpl.
  rewrite index_seqZ by lia.
  replace (totalDays metalSeries - Z.max 0 (totalDays metalSeries - lastNDays))
    with (Z.min (totalDays metalSeries) lastNDays) by lia.
  replace (JS.length metalSeries - Z.min (totalDays metalSeries) lastNDays)
    with (Z.max 0 (totalDays metalSeries - lastNDays))
    by (unfold totalDays; lia).
  reflexivity.
Qed.


(** ** The moving average *)

Lemma lastN_length (k : Z) (l : list Q) :
  0 <= k <= JS.length l -> Z.of_nat (List.length (lastN k l)) = k.
Proof.
  intros Hk. unfold lastN, JS.length in *. rewrite length_drop. lia.
Qed.

Lemma inject_Z_nonzero (z : Z) : 1 <= z -> Qeq_bool (inject_Z z) 0 = false.
Proof.
  intros Hz. destruct (Qeq_bool (inject_Z z) 0) eqn:E; [|reflexivity].
  apply Qeq_bool_eq in E. unfold Qeq in E. simpl in E. lia.
Qed.

(** C4. For a non-empty series of [n] prices and a look-back of at least
    one day, the moving average is the arithmetic mean of the most recent
    [min lookback n] prices, and the row's metric is the change of the
    last price against that mean, with a percentage of zero when the mean
    is zero; a series no longer than the look-back is averaged whole. *)
Theorem C4_moving_average (metalSeries : list Q) (maxLookback : Z) :
  metalSeries <> [] ->
  1 <= maxLookback ->
  let n := totalDays metalSeries in
  exists cur avg,
    metalSeries !! Z.to_nat (n - 1) = Some cur /\
    movingAverage metalSeries maxLookback = JS.Fin avg /\
    Z.of_nat (List.length (lastN (Z.min maxLookback n) metalSeries))
      = Z.min maxLookback n /\
    (avg == mean (lastN (Z.min maxLookback n) metalSeries))%Q /\
    movingAverageDeviation metalSeries maxLookback = metricOf cur avg /\
    (n <= maxLookback -> (avg == mean metalSeries)%Q).
Proof.
  intros Hne HL n.
  pose proof (totalDays_pos _ Hne) as Hn. fold n in Hn.
  destruct (currentPrice_defined _ Hne) as (cur & Hcur & Hcp).
  destruct (sum_loop_spec metalSeries (Z.to_nat n)
              (n - Z.min maxLookback n) 0%Q) as (r & Hsum & Hr);
    [lia | fold n; lia |].
  assert (Hlen : Z.of_nat (List.length (lastN (Z.min maxLookback n) metalSeries))
                 = Z.min maxLookback n)
    by (apply lastN_length; change (JS.length metalSeries) with n; lia).
  assert (Hma : movingAverage metalSeries maxLookback
                = JS.Fin (r / inject_Z (Z.min maxLookback n))%Q).
  { unfold movingAverage. fold n. rewrite Hsum. simpl.
    unfold JS.Qis_zero. now rewrite inject_Z_nonzero by lia. }
  assert (Hmean : (r / inject_Z (Z.min maxLookback n) ==
                   mean (lastN (Z.min maxLookback n) metalSeries))%Q).
  { unfold mean. rewrite Hlen. unfold lastN.
    change (JS.length metalSeries) with n. rewrite Hr. now rewrite Qplus_0_l. }
  exists cur, (r / inject_Z (Z.min maxLookback n))%Q.
  repeat split; try assumption.
  - unfold movingAverageDeviation.
    rewrite Hma, Hcp. apply changeFrom_prices.
  - intros Hle. rewrite Hmean. unfold lastN.
    change (JS.length metalSeries) with n.
    replace (n - Z.min maxLookback n) with 0 by lia.
    reflexivity.
Qed.

(** ** The guard of the percentage *)

Lemma percentOf_zero_ref (amount : JS.number) (ref : Q) :
  (ref == 0)%Q -> percentOf amount (price ref) = JS.Fin 0.
Proof.
  intros Href. unfold percentOf, price. simpl. unfold JS.Qis_zero.
  now rewrite (proj2 (Qeq_bool_iff ref 0) Href).
Qed.

(** The percentage is a proper number whenever current price and
    reference are prices: no division by zero reaches the result. *)
Lemma percentChange_finite (cur ref : Q) :
  exists pct, percentChange (changeFrom (price cur) (price ref)) = JS.Fin pct.
Proof.
  rewrite changeFrom_prices. unfold metricOf. simpl.
  destruct (Qeq_bool ref 0); eauto.
Qed.

(** C6. In the three percentages the script computes (a period row, the
    moving-average row, the day-over-day summary) a reference price or an
    average equal to zero gives the percentage zero itself, whatever the
    current price. *)
Theorem C6_percent_zero_guard (metalSeries : list Q) (period : Period)
    (maxLookback : Z) :
  (forall current ref,
      (ref == 0)%Q ->
      percentChange (changeFrom current (price ref)) = JS.Fin 0) /\
  (forall ref,
      pastPrice metalSeries period = price ref -> (ref == 0)%Q ->
      percentChange (periodChange metalSeries period) = JS.Fin 0) /\
  (forall avg,
      movingAverage metalSeries maxLookback = JS.Fin avg -> (avg == 0)%Q ->
      percentChange (movingAverageDeviation metalSeries maxLookback)
        = JS.Fin 0) /\
  (forall ref,
      prevPrice metalSeries = price ref -> (ref == 0)%Q ->
      percentChange (dayChange metalSeries) = JS.Fin 0).
Proof.
  assert (H : forall current ref, (ref == 0)%Q ->
              percentChange (changeFrom current (price ref)) = JS.Fin 0).
  { intros current ref Href. unfold changeFrom. simpl.
    now apply percentOf_zero_ref. }
  split; [exact H|]. split; [|split].
  - intros ref Hpast Href. unfold periodChange. rewrite Hpast. now apply H.
  - intros avg Hma Havg. unfold movingAverageDeviation. rewrite Hma.
    now apply (H _ avg).
  - intros ref Hprev Href. unfold dayChange. rewrite Hprev. now apply H.
Qed.

(** ** The class of a cell *)

Lemma performanceRows_built (metalSeries : list Q) :
  Forall (fun row => exists m, row = performanceRow (nameCell row) m)
         (performanceRows metalSeries).
Proof.
  unfold performanceRows. apply Forall_app. split.
  - apply Forall_fmap, Forall_forall. intros period _. simpl. eauto.
  - destruct (0 <? totalDays metalSeries); repeat constructor.
    simpl. eauto.
Qed.

(** C10. Every row of the performance table is built from a metric, and
    in a row built from a metric the class of the amount cell is
    [positive] exactly when the amount is at least zero and [negative]
    otherwise, and likewise the percent cell with the percentage; a
    change of zero is shown as [positive]. *)
Theorem C10_sign_class (label : string) (m : DerivedMetric) :
  let row := performanceRow label m in
  (forall metalSeries,
      Forall (fun r => exists m', r = performanceRow (nameCell r) m')
             (performanceRows metalSeries)) /\
  (className (amountCell row) = "positive" <-> num_ge0 (amountChange m)) /\
  (className (amountCell row) = "negative" <-> ~ num_ge0 (amountChange m)) /\
  (className (percentCell row) = "positive" <-> num_ge0 (percentChange m)) /\
  (className (percentCell row) = "negative" <-> ~ num_ge0 (percentChange m)) /\
  (JS.num_eq (amountChange m) (JS.Fin 0) ->
   className (amountCell row) = "positive") /\
  (JS.num_eq (percentChange m) (JS.Fin 0) ->
   className (percentCell row) = "positive").
Proof.
  simpl.
  destruct (signClass_spec (amountChange m)) as [Hap Han].
  destruct (signClass_spec (percentChange m)) as [Hpp Hpn].
  split; [exact performanceRows_built|].
  repeat split; try (apply Hap || apply Han || apply Hpp || apply Hpn).
  - intros Hz. apply Hap. now apply num_ge0_zero.
  - intros Hz. apply Hpp. now apply num_ge0_zero.
Qed.

(** The table shows the entries of [periodChanges] for the six periods,
    then the moving-average row. *)
Lemma performanceRows_periodChanges (metalSeries : list Q) :
  metalSeries <> [] ->
  performanceRows metalSeries =
  ((fun entry => performanceRow (fst entry) (snd entry)) <$>
     periodChanges metalSeries periods)
  ++ [performanceRow "50 DMA" (movingAverageDeviation metalSeries 50)].
Proof.
  intros Hne. pose proof (totalDays_pos _ Hne) as Hn.
  unfold performanceRows, periodChanges.
  destruct (Z.ltb_spec 0 (totalDays metalSeries)); [reflexivity | lia].
Qed.

(** ** The three ways [updateDisplay] ends *)

Lemma getProperty_own (ms : gmap string (list Q)) (key : string)
    (metalSeries : list Q) :
  ms !! key = Some metalSeries <-> getProperty ms key = OwnArray metalSeries.
Proof.
  unfold getProperty. destruct (ms !! key) as [l|].
  - split; congruence.
  - destruct (Object_prototype key); split; discriminate.
Qed.

Lemma series_of_member (p : Page) (metalName : string) (metalSeries : list Q) :
  series_of p metalName = Some metalSeries <->
  member_of p metalName = Some (OwnArray metalSeries).
Proof.
  unfold series_of, member_of.
  destruct (metalsData p) as [md|]; simpl; [|split; discriminate].
  destruct (metals md) as [ms|]; simpl; [|split; discriminate].
  rewrite getProperty_own. split; congruence.
Qed.

(** The update after the two guards, by what the property read gives. *)
Lemma updateDisplay_by_member (tz : TimeZone) (p : Page) (metalName : string) :
  updateDisplay tz p metalName =
  match metalsData p, member_of p metalName with
  | Some md, Some (OwnArray metalSeries) =>
      let cw :=
        chartWindow tz (parse_date_only (start_date md)) metalSeries 30 in
      let p1 :=
        set_chart (new_chart (dark_mode p) metalName (fst cw) (snd cw)) p in
      match currentPrice metalSeries with
      | JS.VUndefined =>
          Threw "TypeError: Cannot read properties of undefined" p1
      | JS.VNum x =>
          Returned
            (set_performance_body (performanceRows metalSeries)
               (updatePriceSummary
                  (set_current_price
                     ("Current Price: INR " +:+ JS.toFixed2 x) p1)
                  metalName (currentPrice metalSeries)
                  (prevPrice metalSeries)))
      end
  | Some md, Some (Inherited len) =>
      let iw := inheritedWindow tz (parse_date_only (start_date md)) len 30 in
      Threw "TypeError: Cannot read properties of undefined"
        (set_chart (new_chart (dark_mode p) metalName (fst iw) (snd iw)) p)
  | _, _ => Returned p
  end.
Proof.
  unfold updateDisplay, member_of.
  destruct (metalsData p) as [md|]; simpl; [|reflexivity].
  destruct (metals md) as [ms|]; simpl; [|reflexivity].
  destruct (getProperty ms metalName) as [metalSeries|len|]; [| |reflexivity].
  - now destruct (chartWindow tz (parse_date_only (start_date md))
                    metalSeries 30).
  - now destruct (inheritedWindow tz (parse_date_only (start_date md)) len 30).
Qed.

(** A read that does not happen, or gives [undefined], ends the update
    at a guard. *)
Lemma updateDisplay_guarded (tz : TimeZone) (p : Page) (metalName : string) :
  member_of p metalName = None \/ member_of p metalName = Some Undefined ->
  updateDisplay tz p metalName = Returned p.
Proof.
  intros H. rewrite updateDisplay_by_member.
  destruct (metalsData p); [|reflexivity].
  now destruct H as [-> | ->].
Qed.

(** The page a completed update leaves. *)
Lemma updateDisplay_returns (tz : TimeZone) (p : Page) (metalName : string)
    (md : Dataset) (metalSeries : list Q) :
  metalsData p = Some md ->
  series_of p metalName = Some metalSeries ->
  metalSeries <> [] ->
  exists cur p',
    metalSeries !! Z.to_nat (totalDays metalSeries - 1) = Some cur /\
    updateDisplay tz p metalName = Returned p' /\
    chart p' =
      Some (new_chart (dark_mode p) metalName
              (fst (chartWindow tz (parse_date_only (start_date md))
                      metalSeries 30))
              (snd (chartWindow tz (parse_date_only (start_date md))
                      metalSeries 30))) /\
    current_price p' = "Current Price: INR " +:+ JS.toFixed2 (JS.Fin cur) /\
    performance_body p' = performanceRows metalSeries /\
    price_summary p' =
      (fun _ => Some (summaryOf (price cur) (dayChange metalSeries)))
        <$> price_summary p /\
    metalsData p' = metalsData p /\
    console_errors p' = console_errors p /\
    alerts p' = alerts p.
Proof.
  intros Hmd Hs Hne.
  destruct (currentPrice_defined _ Hne) as (cur & Hcur & Hcp).
  apply series_of_member in Hs.
  rewrite updateDisplay_by_member, Hmd, Hs. cbv zeta.
  rewrite Hcp. unfold price. simpl.
  eexists cur, _. split; [exact Hcur|]. split; [reflexivity|].
  unfold updatePriceSummary, dayChange. rewrite Hcp. unfold price.
  cbn [price_summary set_current_price set_chart].
  destruct (price_summary p) eqn:Hps; simpl; rewrite ?Hps, ?Hmd;
    now repeat split.
Qed.

(** On an empty price array the update replaces the chart, then fails
    where it formats the missing last price. *)
Lemma updateDisplay_empty (tz : TimeZone) (p : Page) (metalName : string) :
  series_of p metalName = Some [] ->
  updateDisplay tz p metalName =
  Threw "TypeError: Cannot read properties of undefined"
        (set_chart (new_chart (dark_mode p) metalName [] []) p).
Proof.
  intros Hs. apply series_of_member in Hs.
  rewrite updateDisplay_by_member, Hs.
  destruct (metalsData p) as [md|] eqn:Hmd; [reflexivity|].
  unfold member_of in Hs. rewrite Hmd in Hs. discriminate.
Qed.

(** ** The day-over-day summary *)

(** C5. For a non-empty series the summary compares the last price with
    the one before it when there are two prices or more, and with itself
    when there is only one, which gives an amount and a percentage of
    zero, both proper numbers; the display update then completes and
    writes the summary of that change. *)
Theorem C5_day_change (metalSeries : list Q) :
  metalSeries <> [] ->
  let n := totalDays metalSeries in
  exists cur,
    metalSeries !! Z.to_nat (n - 1) = Some cur /\
    currentPrice metalSeries = price cur /\
    (2 <= n ->
     exists ref,
       metalSeries !! Z.to_nat (n - 2) = Some ref /\
       prevPrice metalSeries = price ref /\
       dayChange metalSeries = metricOf cur ref) /\
    (n = 1 ->
     prevPrice metalSeries = price cur /\
     dayChange metalSeries = metricOf cur cur /\
     JS.num_eq (amountChange (dayChange metalSeries)) (JS.Fin 0) /\
     JS.num_eq (percentChange (dayChange metalSeries)) (JS.Fin 0)) /\
    (forall tz p metalName md,
        metalsData p = Some md ->
        series_of p metalName = Some metalSeries ->
        exists p',
          updateDisplay tz p metalName = Returned p' /\
          price_summary p' =
            (fun _ => Some (summaryOf (price cur) (dayChange metalSeries)))
              <$> price_summary p).
Proof.
  intros Hne n.
  destruct (currentPrice_defined _ Hne) as (cur & Hcur & Hcp).
  exists cur. split; [exact Hcur|]. split; [exact Hcp|].
  split; [|split].
  - intros Hn.
    destruct (index_defined metalSeries (n - 2)) as (ref & Href & Hidx);
      [fold n; lia|].
    assert (Hprev : prevPrice metalSeries = price ref).
    { unfold prevPrice. fold n.
      destruct (Z.leb_spec 2 n); [exact Hidx | lia]. }
    exists ref. repeat split; try assumption.
    unfold dayChange. now rewrite Hcp, Hprev, changeFrom_prices.
  - intros Hn.
    assert (Hprev : prevPrice metalSeries = price cur).
    { unfold prevPrice. fold n.
      destruct (Z.leb_spec 2 n); [lia | exact Hcp]. }
    assert (Hdc : dayChange metalSeries = metricOf cur cur)
      by (unfold dayChange; now rewrite Hcp, Hprev, changeFrom_prices).
    rewrite Hdc. destruct (metricOf_same cur). now repeat split.
  - intros tz p metalName md Hmd Hs.
    destruct (updateDisplay_returns tz p metalName md metalSeries Hmd Hs Hne)
      as (cur' & p' & Hcur' & Hret & _ & _ & _ & Hsum & _).
    rewrite Hcur in Hcur'. injection Hcur' as <-.
    exists p'. now split.
Qed.

(** ** Unknown metal names *)

(** A name that is neither a key of the dataset nor a member inherited
    from [Object.prototype]: the update returns without throwing and
    leaves the page as it was, and a later update for a name with a
    non-empty price array completes and draws that metal. *)
Lemma unknown_name_is_a_no_op (tz : TimeZone) (p : Page)
    (md : Dataset) (ms : gmap string (list Q)) (metalName : string) :
  metalsData p = Some md ->
  metals md = Some ms ->
  ms !! metalName = None ->
  Object_prototype metalName = None ->
  updateDisplay tz p metalName = Returned p /\
  (forall (other : string) (metalSeries : list Q),
      ms !! other = Some metalSeries ->
      metalSeries <> [] ->
      exists p',
        updateDisplay tz (page_of (updateDisplay tz p metalName)) other
          = Returned p' /\
        updateDisplay tz p other = Returned p' /\
        performance_body p' = performanceRows metalSeries).
Proof.
  intros Hmd Hms Hnone Hproto.
  assert (Hsilent : updateDisplay tz p metalName = Returned p).
  { apply updateDisplay_guarded. right. unfold member_of, getProperty.
    rewrite Hmd. simpl. rewrite Hms. simpl. now rewrite Hnone, Hproto. }
  split; [exact Hsilent|].
  intros other metalSeries Hother Hne.
  destruct (updateDisplay_returns tz p other md metalSeries Hmd)
    as (cur & p' & _ & Hret & _ & _ & Hbody & _); [|exact Hne|].
  { unfold series_of. rewrite Hmd. simpl. rewrite Hms. simpl. exact Hother. }
  exists p'. rewrite Hsilent. simpl. now repeat split.
Qed.

(** C8, where the script departs from it.  The guard of line 267 tests
    what the property read gives, and for a name such as [constructor]
    the read gives a function inherited from [Object.prototype], not
    [undefined].  On the sample page, whose dataset has no key
    [constructor], the update goes past the guard, takes the function's
    [length] of one for the number of days, replaces the chart by one
    with a single label and an undefined point, and throws where it
    formats the missing current price; so does the page load when the
    selector holds that name, and so does a later change to it. *)
Theorem C8_inherited_name_throws :
  sample_metals !! "constructor" = None /\
  updateDisplay zone_Kolkata loaded_page "constructor" <> Returned loaded_page /\
  (exists c,
     updateDisplay zone_Kolkata loaded_page "constructor" =
       Threw "TypeError: Cannot read properties of undefined"
             (set_chart c loaded_page) /\
     labels c = ["2020-01-01"] /\
     data c = [JS.VUndefined]) /\
  thrown (onDOMContentLoaded zone_Kolkata loaded_page "constructor") =
    Some "TypeError: Cannot read properties of undefined" /\
  thrown (changeMetal zone_Kolkata
            (page_of (onDOMContentLoaded zone_Kolkata loaded_page "gold"))
            "constructor") =
    Some "TypeError: Cannot read properties of undefined".
Proof.
  split; [reflexivity|]. split; [discriminate|].
  split; [eexists; repeat split|]; split; reflexivity.
Qed.

(** ** What the guards report *)

(** C7, as the script has it.  A dataset that is not there at all is
    reported once, by the page-load handler, through the console and an
    alert; the interface is then not set up.  [updateDisplay] itself
    reports nothing: when the dataset lacks its map of metals, and when
    the name is neither a key of the map nor a member inherited from
    [Object.prototype], it returns with the page untouched, so that the
    two cases look the same.  A name whose array is empty is not taken
    for either case: the update goes past the guards, replaces the chart
    and does not end in that silent return. *)
Theorem C7_guards_are_silent (tz : TimeZone) (p : Page) (metalName : string) :
  (metalsData p = None ->
   onDOMContentLoaded tz p metalName = Returned (report_missing_data p) /\
   console_errors (report_missing_data p) =
     console_errors p ++
       ["METALS_DATA is not defined. Ensure data.js is loaded."] /\
   alerts (report_missing_data p) =
     alerts p ++ ["Sample data not loaded. Please check your setup."] /\
   listening (report_missing_data p) = listening p /\
   chart (report_missing_data p) = chart p) /\
  (forall md,
      metalsData p = Some md -> metals md = None ->
      updateDisplay tz p metalName = Returned p) /\
  (forall md ms,
      metalsData p = Some md -> metals md = Some ms ->
      ms !! metalName = None -> Object_prototype metalName = None ->
      updateDisplay tz p metalName = Returned p) /\
  (series_of p metalName = Some [] ->
   updateDisplay tz p metalName <> Returned p /\
   chart (page_of (updateDisplay tz p metalName)) =
     Some (new_chart (dark_mode p) metalName [] [])).
Proof.
  split; [|split; [|split]].
  - intros Hnone. unfold onDOMContentLoaded. rewrite Hnone.
    now repeat split.
  - intros md Hmd Hms. apply updateDisplay_guarded. left.
    unfold member_of. rewrite Hmd. simpl. now rewrite Hms.
  - intros md ms Hmd Hms Hkey Hproto. apply updateDisplay_guarded. right.
    unfold member_of, getProperty. rewrite Hmd. simpl. rewrite Hms. simpl.
    now rewrite Hkey, Hproto.
  - intros Hempty. rewrite (updateDisplay_empty _ _ _ Hempty).
    split; [discriminate | reflexivity].
Qed.

(** ** Chart labels and the time zone *)

(** In a zone whose offset never changes, the label of index [i] is the
    calendar date [i] days after the start date. *)
Lemma dateLabel_without_dst (offset : Z) (c : CalendarDate) (i : Z) :
  dateLabel (fixed_zone offset) (parse_date_only c) i =
  iso_of_day (MakeDay (year c) (month c - 1) (day c) + i).
Proof. now rewrite dateLabel_fixed_zone, Day_parse_date_only. Qed.

Example label_59_Kolkata :
  dateLabel zone_Kolkata (parse_date_only jan_2021) 59 = "2021-03-01".
Proof. vm_compute. reflexivity. Qed.

(** C2, where the script departs from it.  The label is made with
    [getDate] and [setDate], which count days in local time, and printed
    with [toISOString], which prints in UTC.  With the start date
    2021-01-01 and the clock of Berlin, index 59 still gets 2021-03-01,
    but once daylight saving has begun local midnight-plus-one-hour is
    an hour before UTC midnight: index 100 is labelled 2021-04-10, a day
    short of 2021-04-11 (the label the same index gets in Kolkata), the
    indices 86 and 87 share the label 2021-03-28, and the chart drawn for
    101 days of prices ends on 2021-04-10. *)
Theorem C2_label_a_day_short_under_dst :
  let startDate := parse_date_only jan_2021 in
  dateLabel zone_Berlin_2021 startDate 59 = "2021-03-01" /\
  iso_of_day (Day startDate + 100) = "2021-04-11" /\
  dateLabel zone_Kolkata startDate 100 = "2021-04-11" /\
  dateLabel zone_Berlin_2021 startDate 100 = "2021-04-10" /\
  dateLabel zone_New_York_2021 startDate 100 = "2021-04-10" /\
  dateLabel zone_Berlin_2021 startDate 86 = "2021-03-28" /\
  dateLabel zone_Berlin_2021 startDate 87 = "2021-03-28" /\
  (labels <$> chart (page_of (updateDisplay zone_Berlin_2021 flat_page "gold")))
    ≫= last = Some "2021-04-10".
Proof. vm_compute. repeat split. Qed.

(** ** The theorems at sample inputs *)



Lemma C4_moving_average_witness :
  five_days <> [] /\ 1 <= 50 /\
  let n := totalDays five_days in
  exists cur avg,
    five_days !! Z.to_nat (n - 1) = Some cur /\
    movingAverage five_days 50 = JS.Fin avg /\
    Z.of_nat (List.length (lastN (Z.min 50 n) five_days)) = Z.min 50 n /\
    (avg == mean (lastN (Z.min 50 n) five_days))%Q /\
    movingAverageDeviation five_days 50 = metricOf cur avg /\
    (n <= 50 -> (avg == mean five_days)%Q).
Proof.
  assert (H1 : five_days <> []) by discriminate.
  assert (H2 : 1 <= 50) by lia.
  split; [exact H1|]. split; [exact H2|].
  exact (C4_moving_average five_days 50 H1 H2).
Defined.

Lemma C5_day_change_witness :
  [105%Q] <> [] /\
  let n := totalDays [105%Q] in
  exists cur,
    [105%Q] !! Z.to_nat (n - 1) = Some cur /\
    currentPrice [105%Q] = price cur /\
    (2 <= n ->
     exists ref,
       [105%Q] !! Z.to_nat (n - 2) = Some ref /\
       prevPrice [105%Q] = price ref /\
       dayChange [105%Q] = metricOf cur ref) /\
    (n = 1 ->
     prevPrice [105%Q] = price cur /\
     dayChange [105%Q] = metricOf cur cur /\
     JS.num_eq (amountChange (dayChange [105%Q])) (JS.Fin 0) /\
     JS.num_eq (percentChange (dayChange [105%Q])) (JS.Fin 0)) /\
    (forall tz p metalName md,
        metalsData p = Some md ->
        series_of p metalName = Some [105%Q] ->
        exists p',
          updateDisplay tz p metalName = Returned p' /\
          price_summary p' =
            (fun _ => Some (summaryOf (price cur) (dayChange [105%Q])))
              <$> price_summary p).
Proof.
  assert (H1 : [105%Q] <> []) by discriminate.
  split; [exact H1|].
  exact (C5_day_change [105%Q] H1).
Defined.

(** Zero as the price two days back, as the price before the last and as
    the average, with a current price of five. *)
Lemma C6_percent_zero_guard_witness :
  pastPrice around_zero two_days = price 0 /\
  movingAverage around_zero 50 = JS.Fin (0 # 3) /\
  prevPrice around_zero = price 0 /\
  currentPrice around_zero = price 5 /\
  percentChange (periodChange around_zero two_days) = JS.Fin 0 /\
  percentChange (movingAverageDeviation around_zero 50) = JS.Fin 0 /\
  percentChange (dayChange around_zero) = JS.Fin 0.
Proof.
  destruct (C6_percent_zero_guard around_zero two_days 50)
    as (_ & Hperiod & Haverage & Hday).
  assert (H1 : pastPrice around_zero two_days = price 0) by reflexivity.
  assert (H2 : movingAverage around_zero 50 = JS.Fin (0 # 3)) by reflexivity.
  assert (H3 : prevPrice around_zero = price 0) by reflexivity.
  split; [exact H1|]. split; [exact H2|]. split; [exact H3|].
  split; [reflexivity|].
  split; [exact (Hperiod 0%Q H1 (Qeq_refl 0))|].
  split; [exact (Haverage (0 # 3) H2 (eq_refl : (0 # 3 == 0)%Q))|].
  exact (Hday 0%Q H3 (Qeq_refl 0)).
Defined.


(** The claim C7 as the spec states it fails on the script.  Load the
    page once with a dataset that has no map of metals, once with the
    sample dataset and the selector on a metal it does not have: the
    first guard stops the one update, the second guard the other, and
    the two page loads end alike, with no exception and the same page.
    A later change of the selector to that name ends alike too. *)
Lemma C7_no_map_and_unknown_name_look_alike :
  metals <$> metalsData no_metals_page = Some None /\
  metals <$> metalsData loaded_page = Some (Some sample_metals) /\
  sample_metals !! "silver" = None /\
  Object_prototype "silver" = None /\
  observation (onDOMContentLoaded zone_Kolkata no_metals_page "silver") =
  observation (onDOMContentLoaded zone_Kolkata loaded_page "silver") /\
  observation
    (changeMetal zone_Kolkata
       (page_of (onDOMContentLoaded zone_Kolkata no_metals_page "silver"))
       "silver") =
  observation
    (changeMetal zone_Kolkata
       (page_of (onDOMContentLoaded zone_Kolkata loaded_page "silver"))
       "silver").
Proof. vm_compute. repeat split. Qed.

Lemma C7_guards_are_silent_witness :
  (metalsData unset_page = None /\
   metalsData no_metals_page =
     Some {| start_date := jan_2020; metals := None |} /\
   metalsData loaded_page = Some sample_data /\
   metals sample_data = Some sample_metals /\
   sample_metals !! "silver" = None /\
   Object_prototype "silver" = None /\
   series_of loaded_page "tin" = Some []) /\
  onDOMContentLoaded zone_Kolkata unset_page "gold" =
    Returned (report_missing_data unset_page) /\
  alerts (report_missing_data unset_page) =
    alerts unset_page ++ ["Sample data not loaded. Please check your setup."] /\
  updateDisplay zone_Kolkata no_metals_page "gold" = Returned no_metals_page /\
  updateDisplay zone_Kolkata loaded_page "silver" = Returned loaded_page /\
  updateDisplay zone_Kolkata loaded_page "tin" <> Returned loaded_page /\
  chart (page_of (updateDisplay zone_Kolkata loaded_page "tin")) =
    Some (new_chart (dark_mode loaded_page) "tin" [] []).
Proof.
  assert (H1 : metalsData unset_page = None) by reflexivity.
  assert (H2 : metalsData no_metals_page =
               Some {| start_date := jan_2020; metals := None |})
    by reflexivity.
  assert (H3 : metalsData loaded_page = Some sample_data) by reflexivity.
  assert (H4 : metals sample_data = Some sample_metals) by reflexivity.
  assert (H5 : sample_metals !! "silver" = None) by reflexivity.
  assert (H6 : Object_prototype "silver" = None) by reflexivity.
  assert (H7 : series_of loaded_page "tin" = Some []) by reflexivity.
  split; [now repeat split|].
  destruct (C7_guards_are_silent zone_Kolkata unset_page "gold")
    as (Hload & _).
  destruct (C7_guards_are_silent zone_Kolkata no_metals_page "gold")
    as (_ & Hnomap & _).
  destruct (C7_guards_are_silent zone_Kolkata loaded_page "silver")
    as (_ & _ & Hunknown & _).
  destruct (C7_guards_are_silent zone_Kolkata loaded_page "tin")
    as (_ & _ & _ & Hempty).
  destruct (Hload H1) as (Hhandler & _ & Halerts & _).
  destruct (Hempty H7) as (Hnot & Hchart).
  split; [exact Hhandler|]. split; [exact Halerts|].
  split; [exact (Hnomap _ H2 eq_refl)|].
  split; [exact (Hunknown _ _ H3 H4 H5 H6)|].
  split; [exact Hnot | exact Hchart].
Defined.

(** The series of the spec's scenario: its last two prices differ, the
    row of today shows no change, the summary shows seven. *)
Lemma C9_today_row_is_zero_witness :
  (gold <> [] /\ days today = 1) /\
  exists cur,
    gold !! Z.to_nat (totalDays gold - 1) = Some cur /\
    pastPrice gold today = price cur /\
    periodChange gold today = metricOf cur cur /\
    JS.num_eq (amountChange (periodChange gold today)) (JS.Fin 0) /\
    JS.num_eq (percentChange (periodChange gold today)) (JS.Fin 0) /\
    performanceRow (name today) (periodChange gold today) =
      {| nameCell := name today;
         amountCell := {| textContent := "+0.00"; className := "positive" |};
         percentCell := {| textContent := "+0.00%"; className := "positive" |}
      |} /\
    head (performanceRows gold) =
      Some {| nameCell := "Today";
              amountCell :=
                {| textContent := "+0.00"; className := "positive" |};
              percentCell :=
                {| textContent := "+0.00%"; className := "positive" |} |} /\
    (forall prev,
        2 <= totalDays gold ->
        gold !! Z.to_nat (totalDays gold - 2) = Some prev ->
        ~ (cur == prev)%Q ->
        dayChange gold = metricOf cur prev /\
        ~ JS.num_eq (amountChange (dayChange gold))
                    (amountChange (periodChange gold today))).
Proof.
  assert (H1 : gold <> []) by discriminate.
  assert (H2 : days today = 1) by reflexivity.
  split; [now split|].
  exact (C9_today_row_is_zero gold today H1 H2).
Defined.

(** A change of zero and a loss, in one row. *)
Lemma C10_sign_class_witness :
  let m := {| amountChange := JS.Fin 0; percentChange := JS.Fin (-3) |} in
  JS.num_eq (amountChange m) (JS.Fin 0) /\
  ~ num_ge0 (percentChange m) /\
  className (amountCell (performanceRow "30 Days" m)) = "positive" /\
  className (percentCell (performanceRow "30 Days" m)) = "negative".
Proof.
  intros m.
  assert (H1 : JS.num_eq (amountChange m) (JS.Fin 0)) by reflexivity.
  assert (H2 : ~ num_ge0 (percentChange m)) by (intros H; apply H; reflexivity).
  destruct (C10_sign_class "30 Days" m) as (_ & _ & _ & _ & Hneg & Hzero & _).
  split; [exact H1|]. split; [exact H2|].
  split; [exact (Hzero H1) | exact (proj2 Hneg H2)].
Defined.

(** ** Further properties of the display update *)

Lemma series_of_Some (p : Page) (metalName : string) (metalSeries : list Q) :
  series_of p metalName = Some metalSeries <->
  exists md ms,
    metalsData p = Some md /\ metals md = Some ms /\
    ms !! metalName = Some metalSeries.
Proof.
  unfold series_of. split.
  - destruct (metalsData p) as [md|]; simpl; [|discriminate].
    destruct (metals md) as [ms|] eqn:Hms; simpl; [|discriminate].
    intros Hs. now exists md, ms.
  - intros (md & ms & -> & Hms & Hs). simpl. now rewrite Hms.
Qed.

(** The update once the price array is found. *)
Lemma updateDisplay_found (tz : TimeZone) (p : Page) (metalName : string)
    (md : Dataset) (ms : gmap string (list Q)) (metalSeries : list Q) :
  metalsData p = Some md ->
  metals md = Some ms ->
  ms !! metalName = Some metalSeries ->
  updateDisplay tz p metalName =
  let cw := chartWindow tz (parse_date_only (start_date md)) metalSeries 30 in
  let p1 := set_chart (new_chart (dark_mode p) metalName (fst cw) (snd cw)) p in
  match currentPrice metalSeries with
  | JS.VUndefined => Threw "TypeError: Cannot read properties of undefined" p1
  | JS.VNum x =>
      Returned
        (set_performance_body (performanceRows metalSeries)
           (updatePriceSummary
              (set_current_price ("Current Price: INR " +:+ JS.toFixed2 x) p1)
              metalName (currentPrice metalSeries) (prevPrice metalSeries)))
  end.
Proof.
  intros Hmd Hms Hs. rewrite updateDisplay_by_member, Hmd.
  unfold member_of. rewrite Hmd. simpl. rewrite Hms. simpl.
  now rewrite (proj1 (getProperty_own _ _ _) Hs).
Qed.

(** The update when the name is that of an inherited member. *)
Lemma updateDisplay_inherited (tz : TimeZone) (p : Page) (metalName : string)
    (md : Dataset) (len : option Z) :
  metalsData p = Some md ->
  member_of p metalName = Some (Inherited len) ->
  updateDisplay tz p metalName =
  let iw := inheritedWindow tz (parse_date_only (start_date md)) len 30 in
  Threw "TypeError: Cannot read properties of undefined"
        (set_chart (new_chart (dark_mode p) metalName (fst iw) (snd iw)) p).
Proof. intros Hmd Hin. now rewrite updateDisplay_by_member, Hmd, Hin. Qed.

(** The property read depends on the page through its dataset only. *)
Lemma member_of_ext (p q : Page) (metalName : string) :
  metalsData q = metalsData p -> member_of q metalName = member_of p metalName.
Proof. unfold member_of. now intros ->. Qed.

(** The three ways the read can go. *)
Lemma member_cases (p : Page) (metalName : string) :
  (exists md ms metalSeries,
      metalsData p = Some md /\ metals md = Some ms /\
      ms !! metalName = Some metalSeries) \/
  (exists md len,
      metalsData p = Some md /\ member_of p metalName = Some (Inherited len)) \/
  (series_of p metalName = None /\
   (member_of p metalName = None \/ member_of p metalName = Some Undefined)).
Proof.
  unfold member_of, series_of.
  destruct (metalsData p) as [md|]; simpl; [|right; right; auto].
  destruct (metals md) as [ms|] eqn:Hms; simpl; [|right; right; auto].
  unfold getProperty.
  destruct (ms !! metalName) as [metalSeries|] eqn:Hs.
  - left. now exists md, ms, metalSeries.
  - destruct (Object_prototype metalName) as [len|].
    + right. left. now exists md, len.
    + right. right. auto.
Qed.

(** What [updateDisplay] never touches. *)
Lemma updateDisplay_keeps (tz : TimeZone) (p : Page) (metalName : string) :
  let p' := page_of (updateDisplay tz p metalName) in
  metalsData p' = metalsData p /\
  dark_mode p' = dark_mode p /\
  toggle_label p' = toggle_label p /\
  stored_dark_mode p' = stored_dark_mode p /\
  listening p' = listening p /\
  console_errors p' = console_errors p /\
  alerts p' = alerts p /\
  (price_summary p = None <-> price_summary p' = None).
Proof.
  destruct (member_cases p metalName)
    as [(md & ms & metalSeries & Hmd & Hms & Hs)
       | [(md & len & Hmd & Hin) | (_ & Hg)]].
  - rewrite (updateDisplay_found tz p metalName md ms metalSeries Hmd Hms Hs).
    cbv zeta. destruct (currentPrice metalSeries) as [|x]; simpl.
    + now repeat split.
    + unfold updatePriceSummary. cbn [price_summary set_current_price set_chart].
      destruct (price_summary p) eqn:Hps; simpl; rewrite ?Hps;
        repeat split; congruence.
  - rewrite (updateDisplay_inherited tz p metalName md len Hmd Hin).
    simpl. now repeat split.
  - rewrite (updateDisplay_guarded _ _ _ Hg). simpl. now repeat split.
Qed.

(** The listener of the theme button is left alone too. *)
Lemma updateDisplay_keeps_toggle_listener (tz : TimeZone) (p : Page)
    (metalName : string) :
  toggle_listening (page_of (updateDisplay tz p metalName)) = toggle_listening p.
Proof.
  destruct (member_cases p metalName)
    as [(md & ms & metalSeries & Hmd & Hms & Hs)
       | [(md & len & Hmd & Hin) | (_ & Hg)]].
  - rewrite (updateDisplay_found tz p metalName md ms metalSeries Hmd Hms Hs).
    cbv zeta. destruct (currentPrice metalSeries) as [|x]; simpl;
      [reflexivity|].
    unfold updatePriceSummary. cbn [price_summary set_current_price set_chart].
    now destruct (price_summary p).
  - now rewrite (updateDisplay_inherited tz p metalName md len Hmd Hin).
  - now rewrite (updateDisplay_guarded _ _ _ Hg).
Qed.

(** Whatever the name and however the call ends, [updateDisplay] leaves
    the dataset, the theme, the stored preference, the listener, the
    console and the alerts as they were, and neither creates nor removes
    the summary element. *)
Theorem updateDisplay_frame (tz : TimeZone) (p : Page) (metalName : string) :
  let p' := page_of (updateDisplay tz p metalName) in
  metalsData p' = metalsData p /\
  dark_mode p' = dark_mode p /\
  toggle_label p' = toggle_label p /\
  stored_dark_mode p' = stored_dark_mode p /\
  listening p' = listening p /\
  console_errors p' = console_errors p /\
  alerts p' = alerts p /\
  (price_summary p = None <-> price_summary p' = None).
Proof. exact (updateDisplay_keeps tz p metalName). Qed.

(** Updating again with the same name changes nothing more: the second
    call ends as the first did, with the same page. *)
Theorem updateDisplay_idempotent (tz : TimeZone) (p : Page)
    (metalName : string) :
  updateDisplay tz (page_of (updateDisplay tz p metalName)) metalName =
  updateDisplay tz p metalName.
Proof.
  destruct (member_cases p metalName)
    as [(md & ms & metalSeries & Hmd & Hms & Hs)
       | [(md & len & Hmd & Hin) | (_ & Hg)]].
  - rewrite (updateDisplay_found tz p metalName md ms metalSeries Hmd Hms Hs).
    cbv zeta. destruct (currentPrice metalSeries) as [|x] eqn:Hcp.
    + cbn [page_of].
      rewrite (updateDisplay_found tz _ metalName md ms metalSeries);
        [|exact Hmd|exact Hms|exact Hs].
      cbv zeta. rewrite Hcp. reflexivity.
    + cbn [page_of].
      rewrite (updateDisplay_found tz _ metalName md ms metalSeries);
        [|unfold updatePriceSummary;
          cbn [price_summary set_current_price set_chart];
          destruct (price_summary p); exact Hmd
         |exact Hms|exact Hs].
      cbv zeta. rewrite Hcp. f_equal.
      unfold updatePriceSummary.
      cbn [price_summary set_current_price set_chart].
      destruct (price_summary p) eqn:Hps; simpl; rewrite ?Hps; reflexivity.
  - rewrite (updateDisplay_inherited tz p metalName md len Hmd Hin).
    cbv zeta. cbn [page_of].
    rewrite (updateDisplay_inherited tz _ metalName md len);
      [reflexivity | exact Hmd |].
    rewrite <- Hin. now apply member_of_ext.
  - rewrite (updateDisplay_guarded _ _ _ Hg). simpl.
    apply updateDisplay_guarded, Hg.
Qed.

(** ** The theme *)

(** The chart a call draws takes its colours from the theme the page has
    when the call starts. *)
Lemma updateDisplay_colours (tz : TimeZone) (p : Page) (metalName : string)
    (metalSeries : list Q) :
  series_of p metalName = Some metalSeries ->
  exists c,
    chart (page_of (updateDisplay tz p metalName)) = Some c /\
    colours c =
      if dark_mode p then ("#f87171", "#e2e8f0", "#334155")
      else ("#d32f2f", "#333", "#e0e0e0").
Proof.
  intros Hs. apply series_of_Some in Hs as (md & ms & Hmd & Hms & Hs).
  rewrite (updateDisplay_found tz p metalName md ms metalSeries Hmd Hms Hs).
  cbv zeta. eexists.
  split.
  - destruct (currentPrice metalSeries) as [|x]; simpl.
    + reflexivity.
    + unfold updatePriceSummary.
      cbn [price_summary set_current_price set_chart].
      destruct (price_summary p); reflexivity.
  - unfold colours, new_chart. simpl. now destruct (dark_mode p).
Qed.

(** The theme after a run of the click handler. *)
Lemma toggle_theme_facts (tz : TimeZone) (p : Page) (selected : string) :
  let p' := page_of (toggleDarkMode tz p selected) in
  dark_mode p' = negb (dark_mode p) /\
  stored_dark_mode p' = Some (if dark_mode p' then "true" else "false") /\
  toggle_label p' = (if dark_mode p' then lightModeLabel else darkModeLabel) /\
  (forall metalSeries,
      series_of p selected = Some metalSeries ->
      exists c,
        chart p' = Some c /\
        colours c =
          if dark_mode p' then ("#f87171", "#e2e8f0", "#334155")
          else ("#d32f2f", "#333", "#e0e0e0")).
Proof.
  intros p'. subst p'. unfold toggleDarkMode.
  set (q := set_theme _ _ _ p).
  destruct (updateDisplay_keeps tz q selected)
    as (_ & Hdark & Hlabel & Hstored & _).
  rewrite Hdark, Hlabel, Hstored. subst q. simpl.
  repeat split; try (now destruct (dark_mode p)).
  intros metalSeries Hs.
  destruct (updateDisplay_colours tz
              (set_theme (negb (dark_mode p))
                 (if negb (dark_mode p) then lightModeLabel else darkModeLabel)
                 (Some (if negb (dark_mode p) then "true" else "false")) p)
              selected metalSeries Hs) as (c & Hc & Hcol).
  exists c. split; [exact Hc | exact Hcol].
Qed.

(** A click on the theme button does nothing until [initDarkMode] has
    attached the handler.  From then on it runs the handler, which
    flips the theme, stores the new theme as [true] or [false], labels
    the button [Light Mode] in the dark theme and [Dark Mode] in the
    light one (after the symbol, with a no-break space before [Mode]),
    and redraws the chart of a metal that has a price array in the
    colours of the new theme, also when the redraw then fails. *)
Theorem toggleDarkMode_switches (tz : TimeZone) (p : Page) (selected : string) :
  let p' := page_of (toggleDarkMode tz p selected) in
  (toggle_listening p = false -> clickToggle tz p selected = Returned p) /\
  (toggle_listening p = true ->
   clickToggle tz p selected = toggleDarkMode tz p selected) /\
  dark_mode p' = negb (dark_mode p) /\
  stored_dark_mode p' = Some (if dark_mode p' then "true" else "false") /\
  toggle_label p' =
    (if dark_mode p' then "☀️ Light" +:+ nbsp +:+ "Mode"
     else "🌙 Dark" +:+ nbsp +:+ "Mode") /\
  toggle_listening p' = toggle_listening p /\
  (forall metalSeries,
      series_of p selected = Some metalSeries ->
      exists c,
        chart p' = Some c /\
        colours c =
          if dark_mode p' then ("#f87171", "#e2e8f0", "#334155")
          else ("#d32f2f", "#333", "#e0e0e0")).
Proof.
  intros p'.
  destruct (toggle_theme_facts tz p selected) as (Hd & Hs & Hl & Hc).
  split; [unfold clickToggle; now intros ->|].
  split; [unfold clickToggle; now intros ->|].
  split; [exact Hd|]. split; [exact Hs|]. split; [exact Hl|].
  split; [|exact Hc].
  subst p'. unfold toggleDarkMode.
  now rewrite updateDisplay_keeps_toggle_listener.
Qed.

(** What an update shows of a metal that has a price array depends on
    the page only through its dataset, its theme and whether it has a
    summary element. *)
Lemma updateDisplay_display (tz : TimeZone) (p q : Page) (metalName : string)
    (metalSeries : list Q) :
  series_of p metalName = Some metalSeries ->
  metalsData q = metalsData p ->
  dark_mode q = dark_mode p ->
  (price_summary q = None <-> price_summary p = None) ->
  (currentPrice metalSeries = JS.VUndefined ->
   (current_price q, performance_body q, price_summary q) =
   (current_price p, performance_body p, price_summary p)) ->
  display (page_of (updateDisplay tz q metalName)) =
  display (page_of (updateDisplay tz p metalName)).
Proof.
  intros Hs Hdata Hdark Hsum Hstale.
  apply series_of_Some in Hs as (md & ms & Hmd & Hms & Hs).
  rewrite (updateDisplay_found tz p metalName md ms metalSeries Hmd Hms Hs).
  rewrite (updateDisplay_found tz q metalName md ms metalSeries);
    [|congruence|exact Hms|exact Hs].
  cbv zeta. rewrite Hdark.
  destruct (currentPrice metalSeries) as [|x]; cbn [page_of].
  - specialize (Hstale eq_refl). unfold display. simpl.
    injection Hstale as -> -> ->. reflexivity.
  - unfold updatePriceSummary, display.
    cbn [price_summary set_current_price set_chart].
    destruct (price_summary p) eqn:Hp, (price_summary q) eqn:Hq; simpl;
      rewrite ?Hp, ?Hq; try reflexivity.
    + destruct Hsum as [Hsum _]. now specialize (Hsum eq_refl).
    + destruct Hsum as [_ Hsum]. now specialize (Hsum eq_refl).
Qed.

(** The same for the name of an inherited member, where only the chart
    is drawn. *)
Lemma updateDisplay_display_inherited (tz : TimeZone) (p q : Page)
    (metalName : string) (md : Dataset) (len : option Z) :
  metalsData p = Some md ->
  member_of p metalName = Some (Inherited len) ->
  metalsData q = metalsData p ->
  dark_mode q = dark_mode p ->
  (current_price q, performance_body q, price_summary q) =
  (current_price p, performance_body p, price_summary p) ->
  display (page_of (updateDisplay tz q metalName)) =
  display (page_of (updateDisplay tz p metalName)).
Proof.
  intros Hmd Hin Hdata Hdark Hstale.
  rewrite (updateDisplay_inherited tz p metalName md len Hmd Hin).
  rewrite (updateDisplay_inherited tz q metalName md len);
    [|congruence|rewrite <- Hin; now apply member_of_ext].
  cbv zeta. rewrite Hdark. unfold display. simpl.
  injection Hstale as -> -> ->. reflexivity.
Qed.

(** Two clicks on the theme button bring back the theme, and the page
    shows what a plain update of the page would show. *)
Theorem toggleDarkMode_twice (tz : TimeZone) (p : Page) (selected : string) :
  let p1 := page_of (toggleDarkMode tz p selected) in
  let p2 := page_of (toggleDarkMode tz p1 selected) in
  dark_mode p2 = dark_mode p /\
  display p2 = display (page_of (updateDisplay tz p selected)).
Proof.
  intros p1 p2.
  destruct (toggle_theme_facts tz p selected) as (Hd1 & _).
  destruct (toggle_theme_facts tz p1 selected) as (Hd2 & _).
  fold p1 in Hd1. fold p2 in Hd2.
  split; [rewrite Hd2, Hd1; apply Bool.negb_involutive|].
  subst p2. unfold toggleDarkMode.
  set (q1 := set_theme _ _ _ p1).
  subst p1. unfold toggleDarkMode in *.
  set (q0 := set_theme _ _ _ p) in *.
  destruct (updateDisplay_keeps tz q0 selected)
    as (Hdata & _ & _ & _ & _ & _ & _ & Hsum).
  assert (Hm0 : member_of q0 selected = member_of p selected)
    by (apply member_of_ext; reflexivity).
  destruct (member_cases p selected)
    as [(md & ms & metalSeries & Hmd & Hms & Hs)
       | [(md & len & Hmd & Hin) | (_ & Hg)]].
  - assert (Hser : series_of p selected = Some metalSeries)
      by (apply series_of_Some; eauto).
    rewrite (updateDisplay_display tz p q1 selected metalSeries Hser).
    + reflexivity.
    + subst q1. simpl. exact Hdata.
    + subst q1. simpl. rewrite Hd1. apply Bool.negb_involutive.
    + subst q1. simpl. symmetry. exact Hsum.
    + intros Hcp. subst q1. simpl.
      rewrite (updateDisplay_found tz q0 selected md ms metalSeries Hmd Hms Hs).
      cbv zeta. rewrite Hcp. reflexivity.
  - rewrite (updateDisplay_display_inherited tz p q1 selected md len Hmd Hin).
    + reflexivity.
    + subst q1. simpl. exact Hdata.
    + subst q1. simpl. rewrite Hd1. apply Bool.negb_involutive.
    + subst q1. simpl.
      rewrite (updateDisplay_inherited tz q0 selected md len Hmd);
        [reflexivity | now rewrite Hm0].
  - assert (Hg0 : member_of q0 selected = None \/
                  member_of q0 selected = Some Undefined)
      by now rewrite Hm0.
    assert (Hg1 : member_of q1 selected = None \/
                  member_of q1 selected = Some Undefined).
    { subst q1. rewrite (member_of_ext p); [exact Hg|].
      simpl. exact Hdata. }
    rewrite (updateDisplay_guarded _ _ _ Hg1).
    rewrite (updateDisplay_guarded _ _ _ Hg).
    subst q1. simpl. rewrite (updateDisplay_guarded _ _ _ Hg0). reflexivity.
Qed.

(** The theme a click stores is the theme the next page load restores:
    on a document that starts light, [initDarkMode] ends dark exactly
    when the page was dark after the click. *)
Theorem stored_theme_round_trip (tz : TimeZone) (p fresh : Page)
    (selected : string) :
  dark_mode fresh = false ->
  stored_dark_mode fresh =
    stored_dark_mode (page_of (toggleDarkMode tz p selected)) ->
  dark_mode (initDarkMode fresh) =
    dark_mode (page_of (toggleDarkMode tz p selected)).
Proof.
  intros Hlight Hstored.
  destruct (toggle_theme_facts tz p selected) as (_ & Hs & _).
  rewrite Hs in Hstored. unfold initDarkMode. rewrite Hstored.
  destruct (dark_mode (page_of (toggleDarkMode tz p selected)));
    simpl; [reflexivity | exact Hlight].
Qed.

(** ** Page load *)

(** A stored value other than [true] leaves the theme alone. *)
Lemma stored_theme_other (s : string) (p : Page) :
  s <> "true" ->
  match s with
  | "true" => set_theme true lightModeLabel (Some s) p
  | _ => p
  end = p.
Proof.
  intros Hne.
  repeat (match goal with
          | |- context [match ?x with _ => _ end] =>
              destruct x; try reflexivity
          end).
  now contradict Hne.
Qed.

Lemma initDarkMode_keeps (p : Page) :
  metalsData (initDarkMode p) = metalsData p /\
  display (initDarkMode p) = display p /\
  listening (initDarkMode p) = listening p /\
  console_errors (initDarkMode p) = console_errors p /\
  alerts (initDarkMode p) = alerts p.
Proof.
  unfold initDarkMode.
  destruct (stored_dark_mode p) as [s|]; [|now repeat split].
  destruct (decide (s = "true")) as [->|Hne]; [now repeat split|].
  rewrite (stored_theme_other s p Hne). now repeat split.
Qed.

(** Whether an update throws depends on the page through its dataset
    only. *)
Lemma thrown_depends_on_dataset (tz : TimeZone) (p q : Page)
    (metalName : string) :
  metalsData q = metalsData p ->
  thrown (updateDisplay tz q metalName) = thrown (updateDisplay tz p metalName).
Proof.
  intros H. rewrite !updateDisplay_by_member, (member_of_ext p q _ H), H.
  destruct (metalsData p); [|reflexivity].
  destruct (member_of p metalName) as [[metalSeries|len|]|]; try reflexivity.
  cbv zeta. now destruct (currentPrice metalSeries).
Qed.

(** With a dataset the page-load handler attaches the change listener
    before the first render and reports nothing, however the render
    ends.  If the render fails, the stored theme is never applied: theme
    and button label stay as the document had them. *)
Theorem page_load_with_dataset (tz : TimeZone) (p : Page) (selected : string) :
  metalsData p <> None ->
  let o := onDOMContentLoaded tz p selected in
  listening (page_of o) = true /\
  console_errors (page_of o) = console_errors p /\
  alerts (page_of o) = alerts p /\
  thrown o = thrown (updateDisplay tz p selected) /\
  (thrown o <> None ->
   dark_mode (page_of o) = dark_mode p /\
   toggle_label (page_of o) = toggle_label p).
Proof.
  intros Hdata o. subst o. unfold onDOMContentLoaded, initInterface.
  destruct (metalsData p) as [md|] eqn:Hmd; [|congruence].
  destruct (updateDisplay_keeps tz (set_listening p) selected)
    as (_ & Hdark & Hlabel & _ & Hlis & Hcons & Hal & _).
  assert (Hthrown : thrown (updateDisplay tz (set_listening p) selected)
                    = thrown (updateDisplay tz p selected))
    by (apply thrown_depends_on_dataset; reflexivity).
  rewrite <- Hthrown.
  destruct (updateDisplay tz (set_listening p) selected) as [p'|e p'];
    cbn [page_of thrown] in *.
  - destruct (initDarkMode_keeps p') as (_ & _ & Hl & Hc & Ha).
    rewrite Hl, Hc, Ha, Hlis, Hcons, Hal. now repeat split.
  - rewrite Hlis, Hcons, Hal, Hdark, Hlabel. now repeat split.
Qed.

(** On a document that starts light with a dark theme stored, the
    page-load handler draws the chart before it applies the theme: the
    page ends dark, its button labelled [Light Mode] (after the symbol,
    with a no-break space before [Mode]) and listening for clicks, with
    a chart in the colours of the light theme. *)
Theorem page_load_chart_keeps_light_colours (tz : TimeZone) (p : Page)
    (selected : string) (metalSeries : list Q) :
  series_of p selected = Some metalSeries ->
  metalSeries <> [] ->
  dark_mode p = false ->
  stored_dark_mode p = Some "true" ->
  exists p' c,
    onDOMContentLoaded tz p selected = Returned p' /\
    dark_mode p' = true /\
    toggle_label p' = "☀️ Light" +:+ nbsp +:+ "Mode" /\
    toggle_listening p' = true /\
    chart p' = Some c /\
    colours c = ("#d32f2f", "#333", "#e0e0e0").
Proof.
  intros Hs Hne Hlight Hstored.
  assert (Hs' : series_of (set_listening p) selected = Some metalSeries)
    by exact Hs.
  apply series_of_Some in Hs as (md & ms & Hmd & Hms & Hs).
  destruct (updateDisplay_returns tz (set_listening p) selected md metalSeries
              Hmd Hs' Hne) as (cur & p' & _ & Hret & Hchart & _).
  destruct (updateDisplay_keeps tz (set_listening p) selected)
    as (_ & _ & _ & Hst & _).
  rewrite Hret in Hst. simpl in Hst. rewrite Hstored in Hst.
  exists (initDarkMode p'), (new_chart false selected
     (fst (chartWindow tz (parse_date_only (start_date md)) metalSeries 30))
     (snd (chartWindow tz (parse_date_only (start_date md)) metalSeries 30))).
  unfold onDOMContentLoaded, initInterface. rewrite Hmd, Hret.
  unfold initDarkMode. rewrite Hst. simpl. rewrite Hchart. simpl.
  rewrite Hlight. now repeat split.
Qed.

(** ** Further properties of the metrics *)

Lemma movingAverage_mean (metalSeries : list Q) (maxLookback : Z) :
  metalSeries <> [] ->
  1 <= maxLookback ->
  let k := Z.min maxLookback (totalDays metalSeries) in
  exists avg,
    movingAverage metalSeries maxLookback = JS.Fin avg /\
    (avg == Qsum (lastN k metalSeries) / inject_Z k)%Q /\
    Z.of_nat (List.length (lastN k metalSeries)) = k /\
    1 <= k.
Proof.
  intros Hne HL k. pose proof (totalDays_pos _ Hne) as Hn.
  destruct (sum_loop_spec metalSeries (Z.to_nat (totalDays metalSeries))
              (totalDays metalSeries - k) 0%Q) as (r & Hsum & Hr);
    [lia | lia |].
  exists (r / inject_Z k)%Q. repeat split.
  - unfold movingAverage. fold k. rewrite Hsum. simpl.
    unfold JS.Qis_zero. now rewrite inject_Z_nonzero by lia.
  - unfold lastN. change (JS.length metalSeries) with (totalDays metalSeries).
    rewrite Hr. now rewrite Qplus_0_l.
  - apply lastN_length. change (JS.length metalSeries) with (totalDays metalSeries).
    lia.
  - lia.
Qed.

(** Periods that look back as far as the history or further all report
    the same change: that of the last price against the first. *)
Theorem long_periods_agree (metalSeries : list Q) (period other : Period) :
  metalSeries <> [] ->
  totalDays metalSeries <= days period ->
  totalDays metalSeries <= days other ->
  exists first cur,
    metalSeries !! 0%nat = Some first /\
    metalSeries !! Z.to_nat (totalDays metalSeries - 1) = Some cur /\
    periodChange metalSeries period = metricOf cur first /\
    periodChange metalSeries other = periodChange metalSeries period.
Proof.
  intros Hne Hp Ho. pose proof (totalDays_pos _ Hne) as Hn.
  destruct (currentPrice_defined _ Hne) as (cur & Hcur & Hcp).
  destruct (index_defined metalSeries 0) as (first & Hfirst & Hidx); [lia|].
  assert (Hpast : forall q, totalDays metalSeries <= days q ->
                            pastPrice metalSeries q = price first).
  { intros q Hq. unfold pastPrice.
    destruct (Z.leb_spec 0 (totalDays metalSeries - days q)); [|exact Hidx].
    replace (totalDays metalSeries - days q) with 0 by lia. exact Hidx. }
  exists first, cur. split; [exact Hfirst|]. split; [exact Hcur|].
  unfold periodChange. rewrite (Hpast _ Hp), (Hpast _ Ho), Hcp.
  split; [apply changeFrom_prices | reflexivity].
Qed.

(** *** Signs, when no price is negative *)

Lemma metricOf_signs_agree (cur ref : Q) :
  (0 <= cur)%Q -> (0 <= ref)%Q ->
  JS.ge0 (percentChange (metricOf cur ref)) =
  JS.ge0 (amountChange (metricOf cur ref)).
Proof.
  intros Hcur Href. unfold metricOf. simpl.
  destruct (Qeq_bool ref 0) eqn:E.
  - apply Qeq_bool_eq in E. simpl.
    destruct (Qlt_le_dec (cur - ref) 0) as [Hneg|_]; [|reflexivity].
    exfalso. rewrite E in Hneg.
    apply (Qlt_not_le _ _ Hneg).
    setoid_replace (cur - 0)%Q with cur using relation Qeq by ring.
    exact Hcur.
  - apply Qeq_bool_neq in E. unfold JS.ge0.
    destruct (Qlt_le_dec ((cur - ref) / ref * 100) 0) as [Hp|Hp],
             (Qlt_le_dec (cur - ref) 0) as [Ha|Ha]; try reflexivity; exfalso.
    + apply (Qlt_not_le _ _ Hp). unfold Qdiv.
      apply Qmult_le_0_compat; [|discriminate].
      apply Qmult_le_0_compat; [exact Ha|].
      now apply Qinv_le_0_compat.
    + apply (Qlt_not_le _ _ Ha).
      setoid_replace (cur - ref)%Q
        with ((cur - ref) / ref * 100 * (ref * (1 # 100)))%Q
        using relation Qeq by (field; exact E).
      apply Qmult_le_0_compat; [exact Hp|].
      apply Qmult_le_0_compat; [exact Href | discriminate].
Qed.

Lemma Qsum_nonneg (l : list Q) : nonneg_prices l -> (0 <= Qsum l)%Q.
Proof.
  induction 1 as [|q l Hq _ IH]; simpl; [apply Qle_refl|].
  setoid_replace 0%Q with (0 + 0)%Q using relation Qeq by ring.
  now apply Qplus_le_compat.
Qed.

Lemma movingAverage_nonneg (metalSeries : list Q) (maxLookback : Z) :
  metalSeries <> [] ->
  1 <= maxLookback ->
  nonneg_prices metalSeries ->
  exists avg,
    movingAverage metalSeries maxLookback = JS.Fin avg /\ (0 <= avg)%Q.
Proof.
  intros Hne HL Hnn.
  destruct (movingAverage_mean metalSeries maxLookback Hne HL)
    as (avg & Hma & Havg & _ & Hk).
  exists avg. split; [exact Hma|]. rewrite Havg. unfold Qdiv.
  apply Qmult_le_0_compat.
  - apply Qsum_nonneg. unfold nonneg_prices, lastN in *.
    now apply Forall_drop.
  - apply Qinv_le_0_compat. unfold Qle. simpl. lia.
Qed.

(** When no price of a non-empty series is negative, the amount and the
    percentage of every row of the table have the same sign, so the two
    cells of a row always carry the same class; and the class the
    summary takes from the amount, for both of its spans, is the class
    the sign of its percentage would give. *)
Theorem classes_agree_on_nonneg_prices (metalSeries : list Q) :
  metalSeries <> [] ->
  nonneg_prices metalSeries ->
  Forall (fun row => className (amountCell row) = className (percentCell row))
         (performanceRows metalSeries) /\
  (forall current,
      change_class (summaryOf current (dayChange metalSeries)) =
      signClass (percentChange (dayChange metalSeries))).
Proof.
  intros Hne Hnn. pose proof (totalDays_pos _ Hne) as Hn.
  destruct (currentPrice_defined _ Hne) as (cur & Hcur & Hcp).
  assert (Hcur0 : (0 <= cur)%Q) by exact (Forall_lookup_1 _ _ _ _ Hnn Hcur).
  assert (Hrow : forall label ref, (0 <= ref)%Q ->
            className (amountCell (performanceRow label (metricOf cur ref))) =
            className (percentCell (performanceRow label (metricOf cur ref)))).
  { intros label ref Href. unfold performanceRow.
    cbn [className amountCell percentCell]. unfold signClass.
    now rewrite (metricOf_signs_agree cur ref Hcur0 Href). }
  split.
  - unfold performanceRows. apply Forall_app. split.
    + apply Forall_fmap.
      assert (Hdays : Forall (fun period => 1 <= days period) periods)
        by (repeat constructor; simpl; lia).
      induction Hdays as [|period ps Hd _ IH]; constructor; [|exact IH].
      destruct (pastPrice_defined _ period Hne Hd) as (ref & Hpast & Hin & Hout).
      assert (Href : (0 <= ref)%Q).
      { destruct (Z_lt_le_dec (totalDays metalSeries - days period) 0) as [H|H].
        - exact (Forall_lookup_1 _ _ _ _ Hnn (Hout H)).
        - exact (Forall_lookup_1 _ _ _ _ Hnn (Hin H)). }
      change (className (amountCell (performanceRow (name period)
                                       (periodChange metalSeries period))) =
              className (percentCell (performanceRow (name period)
                                        (periodChange metalSeries period)))).
      unfold periodChange. rewrite Hcp, Hpast, changeFrom_prices.
      now apply Hrow.
    + destruct (Z.ltb_spec 0 (totalDays metalSeries)); [|lia].
      repeat constructor.
      destruct (movingAverage_nonneg metalSeries 50 Hne ltac:(lia) Hnn)
        as (avg & Hma & Havg).
      unfold movingAverageDeviation. rewrite Hma, Hcp.
      change (JS.VNum (JS.Fin avg)) with (price avg).
      rewrite changeFrom_prices. now apply Hrow.
  - intros current. unfold summaryOf. cbn [change_class]. unfold signClass.
    assert (Hday : exists ref, (0 <= ref)%Q /\
                               dayChange metalSeries = metricOf cur ref).
    { unfold dayChange, prevPrice.
      destruct (Z.leb_spec 2 (totalDays metalSeries)).
      - destruct (index_defined metalSeries (totalDays metalSeries - 2))
          as (ref & Href & Hidx); [lia|].
        exists ref. split; [exact (Forall_lookup_1 _ _ _ _ Hnn Href)|].
        now rewrite Hcp, Hidx, changeFrom_prices.
      - exists cur. split; [exact Hcur0|].
        now rewrite Hcp, changeFrom_prices. }
    destruct Hday as (ref & Href & ->).
    now rewrite (metricOf_signs_agree cur ref Hcur0 Href).
Qed.

(** ** Texts *)

(** A finite number is always printed with a sign in the table: a plus
    when it is at least zero, the minus of [toFixed] otherwise. *)
Theorem signedFixed_shows_sign (q : Q) :
  exists rest,
    signedFixed (JS.Fin q) =
    String (if JS.ge0 (JS.Fin q) then "+" else "-")%char rest.
Proof.
  unfold signedFixed, JS.toFixed2, JS.Qsgn_neg, JS.ge0.
  destruct (Qlt_le_dec q 0); simpl; eauto.
Qed.

Lemma toUpperCase_ascii_idempotent (c : ascii) :
  JS.toUpperCase_ascii (JS.toUpperCase_ascii c) = JS.toUpperCase_ascii c.
Proof. destruct c as [[] [] [] [] [] [] [] []]; reflexivity. Qed.

(** Capitalizing a capitalized name changes nothing. *)
Theorem capitalize_idempotent (str : string) :
  capitalize (capitalize str) = capitalize str.
Proof.
  destruct str as [|c rest]; simpl; [reflexivity|].
  now rewrite toUpperCase_ascii_idempotent.
Qed.

(** ** The chart, once more *)

(** In a time zone whose offset never changes, the labels of the chart
    are consecutive calendar days: the days from [startDate + max 0 (n -
    w)] on, one per point. *)
Theorem chart_labels_without_dst (offset : Z) (c : CalendarDate)
    (metalSeries : list Q) (w : Z) :
  0 <= w ->
  let n := totalDays metalSeries in
  let startDay := MakeDay (year c) (month c - 1) (day c) in
  fst (chartWindow (fixed_zone offset) (parse_date_only c) metalSeries w) =
  iso_of_day <$> seqZ (startDay + Z.max 0 (n - w)) (Z.min n w).
Proof.
  intros Hw n startDay. rewrite chartWindow_spec by exact Hw. cbn [fst].
  fold n. rewrite <- fmap_add_seqZ, <- list_fmap_compose.
  apply list_fmap_ext. intros k i _. unfold compose.
  apply dateLabel_without_dst.
Qed.

(** A completed update of a metal leaves, whatever the page held before,
    a table of exactly seven rows, the six periods and the moving
    average in this order, and a chart titled with the capitalized name
    that has as many labels as points, [min n 30] of them. *)
Theorem completed_update_shape (tz : TimeZone) (p p' : Page)
    (metalName : string) (metalSeries : list Q) :
  series_of p metalName = Some metalSeries ->
  updateDisplay tz p metalName = Returned p' ->
  metalSeries <> [] /\
  rowNames (performance_body p') =
    ["Today"; "30 Days"; "6 Months"; "1 Year"; "5 Years"; "20 Years";
     "50 DMA"] /\
  exists c,
    chart p' = Some c /\
    dataset_label c = capitalize metalName +:+ " price (INR)" /\
    List.length (labels c) = List.length (data c) /\
    Z.of_nat (List.length (data c)) = Z.min (totalDays metalSeries) 30.
Proof.
  intros Hs Hret.
  assert (Hne : metalSeries <> []).
  { intros ->. rewrite (updateDisplay_empty _ _ _ Hs) in Hret. discriminate. }
  split; [exact Hne|].
  pose proof Hs as Hs'.
  apply series_of_Some in Hs' as (md & ms & Hmd & _).
  destruct (updateDisplay_returns tz p metalName md metalSeries Hmd Hs Hne)
    as (cur & p'' & _ & Hret' & Hchart & _ & Hbody & _).
  rewrite Hret in Hret'. injection Hret' as <-.
  split.
  - rewrite Hbody. unfold rowNames, performanceRows.
    pose proof (totalDays_pos _ Hne).
    destruct (Z.ltb_spec 0 (totalDays metalSeries)); [reflexivity | lia].
  - eexists. split; [exact Hchart|].
    rewrite chartWindow_spec by lia. cbn [fst snd new_chart labels data
                                          dataset_label].
    split; [reflexivity|].
    assert (Hlen : Z.of_nat (List.length
              (lastN (Z.min (totalDays metalSeries) 30) metalSeries))
            = Z.min (totalDays metalSeries) 30).
    { apply lastN_length.
      change (JS.length metalSeries) with (totalDays metalSeries).
      pose proof (totalDays_pos _ Hne). lia. }
    rewrite !length_fmap, length_seqZ. lia.
Qed.

(** ** The two versions of the script *)

Lemma legacy_updateDisplay_by_member (tz : TimeZone) (p : Page)
    (metalName : string) :
  Legacy.updateDisplay tz p metalName =
  match metalsData p, member_of p metalName with
  | Some md, Some (OwnArray metalSeries) =>
      let cw :=
        chartWindow tz (parse_date_only (start_date md)) metalSeries 30 in
      let p1 := set_chart (Legacy.new_chart metalName (fst cw) (snd cw)) p in
      match currentPrice metalSeries with
      | JS.VUndefined =>
          Threw "TypeError: Cannot read properties of undefined" p1
      | JS.VNum x =>
          Returned
            (set_performance_body
               (map (fun period =>
                       performanceRow (name period)
                         (periodChange metalSeries period)) periods)
               (set_current_price
                  ("Current Price: INR " +:+ JS.toFixed2 x) p1))
      end
  | Some md, Some (Inherited len) =>
      let iw := inheritedWindow tz (parse_date_only (start_date md)) len 30 in
      Threw "TypeError: Cannot read properties of undefined"
        (set_chart (Legacy.new_chart metalName (fst iw) (snd iw)) p)
  | _, _ => Returned p
  end.
Proof.
  unfold Legacy.updateDisplay, member_of.
  destruct (metalsData p) as [md|]; simpl; [|reflexivity].
  destruct (metals md) as [ms|]; simpl; [|reflexivity].
  destruct (getProperty ms metalName) as [metalSeries|len|]; [| |reflexivity].
  - now destruct (chartWindow tz (parse_date_only (start_date md))
                    metalSeries 30).
  - now destruct (inheritedWindow tz (parse_date_only (start_date md)) len 30).
Qed.

(** On a page in the light theme the current [updateDisplay] ends as the
    first version did, with the same chart and the same current-price
    text; its table is that of the first version followed by the
    moving-average row, and only it writes the summary.  Where there is
    nothing to draw, or the array is empty, the two leave the same
    page. *)
Theorem versions_agree_in_light_theme (tz : TimeZone) (p : Page)
    (metalName : string) :
  dark_mode p = false ->
  let old := Legacy.updateDisplay tz p metalName in
  let new := updateDisplay tz p metalName in
  thrown old = thrown new /\
  chart (page_of old) = chart (page_of new) /\
  current_price (page_of old) = current_price (page_of new) /\
  price_summary (page_of old) = price_summary p /\
  (forall metalSeries,
      series_of p metalName = Some metalSeries ->
      metalSeries <> [] ->
      performance_body (page_of new) =
      performance_body (page_of old) ++
        [performanceRow "50 DMA" (movingAverageDeviation metalSeries 50)]) /\
  (series_of p metalName = None \/ series_of p metalName = Some [] ->
   page_of old = page_of new).
Proof.
  intros Hlight old new. subst old new.
  rewrite updateDisplay_by_member, legacy_updateDisplay_by_member.
  destruct (metalsData p) as [md|] eqn:Hmd.
  2:{ repeat split; try reflexivity.
      intros s' Hs'. apply series_of_Some in Hs' as (d & ? & Hd & _).
      congruence. }
  destruct (member_of p metalName) as [[metalSeries|len|]|] eqn:Hm.
  - apply series_of_member in Hm.
    cbv zeta. rewrite Hlight.
    change (new_chart false metalName) with (Legacy.new_chart metalName).
    destruct (currentPrice metalSeries) as [|x] eqn:Hcp; cbn [page_of thrown].
    + repeat split; try reflexivity.
      intros s' Hs' Hne. rewrite Hm in Hs'. injection Hs' as <-.
      destruct (currentPrice_defined _ Hne) as (cur & _ & Hcur).
      rewrite Hcur in Hcp. discriminate.
    + unfold updatePriceSummary.
      cbn [price_summary set_current_price set_chart].
      destruct (price_summary p) eqn:Hps; simpl; rewrite ?Hps;
        (repeat split; try reflexivity;
         [ intros s' Hs' Hne; rewrite Hm in Hs'; injection Hs' as <-;
           unfold performanceRows;
           pose proof (totalDays_pos _ Hne);
           destruct (Z.ltb_spec 0 (totalDays metalSeries));
           [reflexivity | lia]
         | intros [H|H]; rewrite Hm in H; [discriminate H|];
           injection H as ->; discriminate Hcp ]).
  - cbv zeta. rewrite Hlight.
    change (new_chart false metalName) with (Legacy.new_chart metalName).
    cbn [page_of thrown]. repeat split; try reflexivity.
    intros s' Hs'. apply series_of_member in Hs'. congruence.
  - repeat split; try reflexivity.
    intros s' Hs'. apply series_of_member in Hs'. congruence.
  - repeat split; try reflexivity.
    intros s' Hs'. apply series_of_member in Hs'. congruence.
Qed.

(** ** Chart labels where the offset changes *)

Lemma setDate_shift (tz : TimeZone) (t i : Z) :
  setDate tz t (getDate tz t + i) = UTC tz (LocalTime tz t + i * msPerDay).
Proof.
  unfold setDate, getDate. rewrite MakeDay_shift. f_equal.
  unfold MakeDate, Day, TimeWithinDay.
  pose proof (Z.div_mod (LocalTime tz t) msPerDay). unfold msPerDay in *. lia.
Qed.

(** The label of index [i], in any time zone whose offsets differ by
    less than a day: it is the date [i] days after the start date when
    the offset at the target local time is not above the offset at the
    start instant, and the day before that date when it is above. *)
Theorem label_day_with_changing_offset (tz : TimeZone) (c : CalendarDate)
    (i : Z) :
  let t := parse_date_only c in
  let startDay := MakeDay (year c) (month c - 1) (day c) in
  let before := offsetUTC tz t in
  let after := offsetLocal tz (t + before + i * msPerDay) in
  - msPerDay <= before - after < msPerDay ->
  dateLabel tz t i =
  iso_of_day (if after <=? before then startDay + i else startDay + i - 1).
Proof.
  intros t startDay before after Hdiff.
  unfold dateLabel. rewrite setDate_shift. unfold toISOString_date. f_equal.
  unfold UTC, LocalTime. fold before. fold after.
  assert (Ht : t = startDay * msPerDay)
    by (unfold t, parse_date_only, MakeDate; fold startDay; lia).
  rewrite Ht. unfold Day.
  replace (startDay * msPerDay + before + i * msPerDay - after)
    with ((before - after) + (startDay + i) * msPerDay) by lia.
  rewrite Z.div_add by (unfold msPerDay; lia).
  destruct (Z.leb_spec after before).
  - rewrite Z.div_small by lia. lia.
  - replace ((before - after) / msPerDay) with (-1); [lia|].
    apply Z.div_unique with (r := before - after + msPerDay);
      unfold msPerDay in *; lia.
Qed.

(** ** Edge cases of the series *)

(** A name bound to an empty array: the update replaces the chart by an
    empty one and then fails, so the current-price text, the table and
    the summary still show what they showed before. *)
Theorem empty_array_leaves_stale_page (tz : TimeZone) (p : Page)
    (metalName : string) :
  series_of p metalName = Some [] ->
  exists e p' c,
    updateDisplay tz p metalName = Threw e p' /\
    chart p' = Some c /\ labels c = [] /\ data c = [] /\
    current_price p' = current_price p /\
    performance_body p' = performance_body p /\
    price_summary p' = price_summary p.
Proof.
  intros Hs. rewrite (updateDisplay_empty _ _ _ Hs).
  eexists _, _, _. split; [reflexivity|]. simpl. now repeat split.
Qed.

Lemma metricOf_equal (cur ref : Q) :
  (cur == ref)%Q ->
  JS.num_eq (amountChange (metricOf cur ref)) (JS.Fin 0) /\
  JS.num_eq (percentChange (metricOf cur ref)) (JS.Fin 0).
Proof.
  intros Heq. unfold metricOf. simpl. split; [rewrite Heq; ring|].
  destruct (Qeq_bool ref 0); simpl; [reflexivity|].
  unfold Qdiv. setoid_replace (cur - ref)%Q with 0%Q using relation Qeq
    by (rewrite Heq; ring).
  ring.
Qed.

(** A series of a single price shows no change anywhere: each of the
    seven rows reads [+0.00] and [+0.00%] as a gain, and the summary's
    change is zero. *)
Theorem single_price_shows_no_change (q : Q) :
  Forall (fun row =>
            amountCell row =
              {| textContent := "+0.00"; className := "positive" |} /\
            percentCell row =
              {| textContent := "+0.00%"; className := "positive" |})
         (performanceRows [q]) /\
  List.length (performanceRows [q]) = 7%nat /\
  JS.num_eq (amountChange (dayChange [q])) (JS.Fin 0) /\
  JS.num_eq (percentChange (dayChange [q])) (JS.Fin 0).
Proof.
  assert (Hrow : forall label ref, (q == ref)%Q ->
            amountCell (performanceRow label (metricOf q ref)) =
              {| textContent := "+0.00"; className := "positive" |} /\
            percentCell (performanceRow label (metricOf q ref)) =
              {| textContent := "+0.00%"; className := "positive" |}).
  { intros label ref Heq. destruct (metricOf_equal q ref Heq) as [Ha Hp].
    now rewrite (performanceRow_zero label _ Ha Hp). }
  split; [|split; [reflexivity|]].
  - unfold performanceRows. apply Forall_app. split.
    + assert (Hdays : Forall (fun period => 1 <= days period) periods)
        by (repeat constructor; simpl; lia).
      apply Forall_fmap. eapply Forall_impl; [exact Hdays|].
      intros period Hd. cbv beta in Hd.
      change (amountCell (performanceRow (name period)
                            (periodChange [q] period)) =
                {| textContent := "+0.00"; className := "positive" |} /\
              percentCell (performanceRow (name period)
                             (periodChange [q] period)) =
                {| textContent := "+0.00%"; className := "positive" |}).
      assert (Hpc : periodChange [q] period = metricOf q q).
      { unfold periodChange, pastPrice.
        change (currentPrice [q]) with (price q).
        change (totalDays [q]) with 1.
        destruct (Z.leb_spec 0 (1 - days period)) as [H|H].
        - replace (1 - days period) with 0 by lia. apply changeFrom_prices.
        - apply changeFrom_prices. }
      rewrite Hpc. apply Hrow. reflexivity.
    + change (0 <? totalDays [q]) with true. cbv iota.
      repeat constructor.
      * change (movingAverageDeviation [q] 50)
          with (changeFrom (price q) (price ((0 + q) / inject_Z 1))).
        rewrite changeFrom_prices.
        apply Hrow. field.
      * change (movingAverageDeviation [q] 50)
          with (changeFrom (price q) (price ((0 + q) / inject_Z 1))).
        rewrite changeFrom_prices.
        apply Hrow. field.
  - change (dayChange [q]) with (changeFrom (price q) (price q)).
    rewrite changeFrom_prices. apply metricOf_same.
Qed.

(** When no price is negative and none is above the last one, the rows
    of the six periods are gains throughout: their cells all carry the
    class [positive].  (The moving-average row is left out: it compares
    with a computed average, not with a price of the series.) *)
Theorem at_the_high_period_rows_are_positive (metalSeries : list Q) (cur : Q) :
  metalSeries <> [] ->
  metalSeries !! Z.to_nat (totalDays metalSeries - 1) = Some cur ->
  prices_within 0 cur metalSeries ->
  List.length (performanceRows metalSeries) = 7%nat /\
  Forall (fun row => className (amountCell row) = "positive" /\
                     className (percentCell row) = "positive")
         (take 6 (performanceRows metalSeries)).
Proof.
  intros Hne Hcur Hwithin. pose proof (totalDays_pos _ Hne) as Hn.
  assert (Hcp : currentPrice metalSeries = price cur)
    by (apply index_in_range; [lia | exact Hcur]).
  assert (Hcur0 : (0 <= cur)%Q)
    by exact (proj1 (Forall_lookup_1 _ _ _ _ Hwithin Hcur)).
  assert (Hrow : forall label ref, (0 <= ref)%Q -> (ref <= cur)%Q ->
            className (amountCell (performanceRow label (metricOf cur ref)))
              = "positive" /\
            className (percentCell (performanceRow label (metricOf cur ref)))
              = "positive").
  { intros label ref Hlo Hhi. unfold performanceRow.
    cbn [className amountCell percentCell]. unfold signClass.
    rewrite (metricOf_signs_agree cur ref Hcur0 Hlo).
    assert (Hge : JS.ge0 (amountChange (metricOf cur ref)) = true).
    { apply ge0_spec. simpl. unfold Qminus.
      rewrite <- (Qplus_opp_r ref). apply Qplus_le_compat;
        [exact Hhi | apply Qle_refl]. }
    now rewrite Hge. }
  unfold performanceRows.
  destruct (Z.ltb_spec 0 (totalDays metalSeries)); [|lia].
  split; [reflexivity|].
  change 6%nat with
    (List.length ((fun period =>
                     performanceRow (name period)
                       (periodChange metalSeries period)) <$> periods)).
  rewrite take_app_length.
  assert (Hdays : Forall (fun period => 1 <= days period) periods)
    by (repeat constructor; simpl; lia).
  apply Forall_fmap. eapply Forall_impl; [exact Hdays|].
  intros period Hd. cbv beta in Hd.
  destruct (pastPrice_defined _ period Hne Hd) as (ref & Hpast & Hin & Hout).
  assert (Href : (0 <= ref)%Q /\ (ref <= cur)%Q).
  { destruct (Z_lt_le_dec (totalDays metalSeries - days period) 0) as [H'|H'].
    - exact (Forall_lookup_1 _ _ _ _ Hwithin (Hout H')).
    - exact (Forall_lookup_1 _ _ _ _ Hwithin (Hin H')). }
  change (className (amountCell (performanceRow (name period)
                                   (periodChange metalSeries period)))
            = "positive" /\
          className (percentCell (performanceRow (name period)
                                    (periodChange metalSeries period)))
            = "positive").
  unfold periodChange. rewrite Hcp, Hpast, changeFrom_prices.
  now apply Hrow.
Qed.

(** ** The further properties at sample inputs *)

(** The sample page after its load: a click runs the handler. *)
Lemma toggleDarkMode_switches_witness :
  (toggle_listening ready_page = true /\
   toggle_listening loaded_page = false /\
   series_of ready_page "gold" = Some gold) /\
  clickToggle zone_Kolkata loaded_page "gold" = Returned loaded_page /\
  clickToggle zone_Kolkata ready_page "gold" =
    toggleDarkMode zone_Kolkata ready_page "gold" /\
  exists c,
    chart (page_of (toggleDarkMode zone_Kolkata ready_page "gold")) = Some c /\
    colours c =
      if dark_mode (page_of (toggleDarkMode zone_Kolkata ready_page "gold"))
      then ("#f87171", "#e2e8f0", "#334155")
      else ("#d32f2f", "#333", "#e0e0e0").
Proof.
  assert (H1 : toggle_listening ready_page = true) by reflexivity.
  assert (H2 : toggle_listening loaded_page = false) by reflexivity.
  assert (H3 : series_of ready_page "gold" = Some gold) by reflexivity.
  split; [now repeat split|].
  destruct (toggleDarkMode_switches zone_Kolkata loaded_page "gold")
    as (Hoff & _).
  destruct (toggleDarkMode_switches zone_Kolkata ready_page "gold")
    as (_ & Hon & _ & _ & _ & _ & Hchart).
  split; [exact (Hoff H2)|]. split; [exact (Hon H1)|].
  exact (Hchart gold H3).
Defined.

Lemma stored_theme_round_trip_witness :
  dark_mode returning_page = false /\
  stored_dark_mode returning_page =
    stored_dark_mode (page_of (toggleDarkMode zone_Kolkata loaded_page "gold")) /\
  dark_mode (initDarkMode returning_page) =
    dark_mode (page_of (toggleDarkMode zone_Kolkata loaded_page "gold")).
Proof.
  assert (H1 : dark_mode returning_page = false) by reflexivity.
  assert (H2 : stored_dark_mode returning_page =
               stored_dark_mode
                 (page_of (toggleDarkMode zone_Kolkata loaded_page "gold")))
    by reflexivity.
  split; [exact H1|]. split; [exact H2|].
  exact (stored_theme_round_trip zone_Kolkata loaded_page returning_page
           "gold" H1 H2).
Defined.

(** A page load whose first render fails, on the empty array. *)
Lemma page_load_with_dataset_witness :
  metalsData returning_page <> None /\
  let o := onDOMContentLoaded zone_Kolkata returning_page "tin" in
  listening (page_of o) = true /\
  console_errors (page_of o) = console_errors returning_page /\
  alerts (page_of o) = alerts returning_page /\
  thrown o = thrown (updateDisplay zone_Kolkata returning_page "tin") /\
  (thrown o <> None ->
   dark_mode (page_of o) = dark_mode returning_page /\
   toggle_label (page_of o) = toggle_label returning_page).
Proof.
  assert (H : metalsData returning_page <> None) by discriminate.
  split; [exact H|].
  exact (page_load_with_dataset zone_Kolkata returning_page "tin" H).
Defined.

Lemma page_load_chart_keeps_light_colours_witness :
  (series_of returning_page "gold" = Some gold /\ gold <> [] /\
   dark_mode returning_page = false /\
   stored_dark_mode returning_page = Some "true") /\
  exists p' c,
    onDOMContentLoaded zone_Kolkata returning_page "gold" = Returned p' /\
    dark_mode p' = true /\
    toggle_label p' = "☀️ Light" +:+ nbsp +:+ "Mode" /\
    toggle_listening p' = true /\
    chart p' = Some c /\
    colours c = ("#d32f2f", "#333", "#e0e0e0").
Proof.
  assert (H1 : series_of returning_page "gold" = Some gold) by reflexivity.
  assert (H2 : gold <> []) by discriminate.
  assert (H3 : dark_mode returning_page = false) by reflexivity.
  assert (H4 : stored_dark_mode returning_page = Some "true") by reflexivity.
  split; [now repeat split|].
  exact (page_load_chart_keeps_light_colours zone_Kolkata returning_page
           "gold" gold H1 H2 H3 H4).
Defined.

(** Four days of prices: a year and five years both look back past the
    first day. *)
Lemma long_periods_agree_witness :
  (gold <> [] /\ totalDays gold <= days one_year /\
   totalDays gold <= days five_years) /\
  exists first cur,
    gold !! 0%nat = Some first /\
    gold !! Z.to_nat (totalDays gold - 1) = Some cur /\
    periodChange gold one_year = metricOf cur first /\
    periodChange gold five_years = periodChange gold one_year.
Proof.
  assert (H1 : gold <> []) by discriminate.
  assert (H2 : totalDays gold <= days one_year) by (vm_compute; discriminate).
  assert (H3 : totalDays gold <= days five_years) by (vm_compute; discriminate).
  split; [now repeat split|].
  exact (long_periods_agree gold one_year five_years H1 H2 H3).
Defined.

Lemma classes_agree_on_nonneg_prices_witness :
  (gold <> [] /\ nonneg_prices gold) /\
  Forall (fun row => className (amountCell row) = className (percentCell row))
         (performanceRows gold) /\
  (forall current,
      change_class (summaryOf current (dayChange gold)) =
      signClass (percentChange (dayChange gold))).
Proof.
  assert (H1 : gold <> []) by discriminate.
  assert (H2 : nonneg_prices gold) by (repeat constructor; discriminate).
  split; [now split|].
  exact (classes_agree_on_nonneg_prices gold H1 H2).
Defined.

Lemma chart_labels_without_dst_witness :
  0 <= 30 /\
  let n := totalDays gold in
  let startDay := MakeDay (year jan_2020) (month jan_2020 - 1) (day jan_2020) in
  fst (chartWindow (fixed_zone 19800000) (parse_date_only jan_2020) gold 30) =
  iso_of_day <$> seqZ (startDay + Z.max 0 (n - 30)) (Z.min n 30).
Proof.
  assert (H : 0 <= 30) by lia.
  split; [exact H|].
  exact (chart_labels_without_dst 19800000 jan_2020 gold 30 H).
Defined.

Lemma completed_update_shape_witness :
  let p' := page_of (updateDisplay zone_Kolkata loaded_page "gold") in
  (series_of loaded_page "gold" = Some gold /\
   updateDisplay zone_Kolkata loaded_page "gold" = Returned p') /\
  gold <> [] /\
  rowNames (performance_body p') =
    ["Today"; "30 Days"; "6 Months"; "1 Year"; "5 Years"; "20 Years";
     "50 DMA"] /\
  exists c,
    chart p' = Some c /\
    dataset_label c = capitalize "gold" +:+ " price (INR)" /\
    List.length (labels c) = List.length (data c) /\
    Z.of_nat (List.length (data c)) = Z.min (totalDays gold) 30.
Proof.
  intros p'.
  assert (H1 : series_of loaded_page "gold" = Some gold) by reflexivity.
  assert (H2 : updateDisplay zone_Kolkata loaded_page "gold" = Returned p')
    by (vm_compute; reflexivity).
  split; [now split|].
  exact (completed_update_shape zone_Kolkata loaded_page p' "gold" gold H1 H2).
Defined.

Lemma versions_agree_in_light_theme_witness :
  dark_mode loaded_page = false /\
  let old := Legacy.updateDisplay zone_Kolkata loaded_page "gold" in
  let new := updateDisplay zone_Kolkata loaded_page "gold" in
  thrown old = thrown new /\
  chart (page_of old) = chart (page_of new) /\
  current_price (page_of old) = current_price (page_of new) /\
  price_summary (page_of old) = price_summary loaded_page /\
  (forall metalSeries,
      series_of loaded_page "gold" = Some metalSeries ->
      metalSeries <> [] ->
      performance_body (page_of new) =
      performance_body (page_of old) ++
        [performanceRow "50 DMA" (movingAverageDeviation metalSeries 50)]) /\
  (series_of loaded_page "gold" = None \/
   series_of loaded_page "gold" = Some [] ->
   page_of old = page_of new).
Proof.
  assert (H : dark_mode loaded_page = false) by reflexivity.
  split; [exact H|].
  exact (versions_agree_in_light_theme zone_Kolkata loaded_page "gold" H).
Defined.

(** Berlin, a hundred days after 2021-01-01: the offset has grown from
    one hour to two, and the label is that of the ninety-ninth day. *)
Lemma label_day_with_changing_offset_witness :
  let t := parse_date_only jan_2021 in
  let startDay := MakeDay (year jan_2021) (month jan_2021 - 1) (day jan_2021) in
  let before := offsetUTC zone_Berlin_2021 t in
  let after := offsetLocal zone_Berlin_2021 (t + before + 100 * msPerDay) in
  (before = 3600000 /\ after = 7200000 /\
   - msPerDay <= before - after < msPerDay) /\
  dateLabel zone_Berlin_2021 t 100 =
  iso_of_day (if after <=? before then startDay + 100 else startDay + 100 - 1).
Proof.
  intros t startDay before after.
  assert (H : - msPerDay <= before - after < msPerDay)
    by (vm_compute; split; [intros X; discriminate X | reflexivity]).
  split; [repeat split; try reflexivity; apply H|].
  exact (label_day_with_changing_offset zone_Berlin_2021 jan_2021 100 H).
Defined.

Lemma empty_array_leaves_stale_page_witness :
  series_of loaded_page "tin" = Some [] /\
  exists e p' c,
    updateDisplay zone_Kolkata loaded_page "tin" = Threw e p' /\
    chart p' = Some c /\ labels c = [] /\ data c = [] /\
    current_price p' = current_price loaded_page /\
    performance_body p' = performance_body loaded_page /\
    price_summary p' = price_summary loaded_page.
Proof.
  assert (H : series_of loaded_page "tin" = Some []) by reflexivity.
  split; [exact H|].
  exact (empty_array_leaves_stale_page zone_Kolkata loaded_page "tin" H).
Defined.

(** Ten days of rising prices. *)
Lemma at_the_high_period_rows_are_positive_witness :
  (ten_days <> [] /\
   ten_days !! Z.to_nat (totalDays ten_days - 1) = Some 10%Q /\
   prices_within 0 10 ten_days) /\
  List.length (performanceRows ten_days) = 7%nat /\
  Forall (fun row => className (amountCell row) = "positive" /\
                     className (percentCell row) = "positive")
         (take 6 (performanceRows ten_days)).
Proof.
  assert (H1 : ten_days <> []) by discriminate.
  assert (H2 : ten_days !! Z.to_nat (totalDays ten_days - 1) = Some 10%Q)
    by reflexivity.
  assert (H3 : prices_within 0 10 ten_days)
    by (repeat constructor; discriminate).
  split; [now repeat split|].
  exact (at_the_high_period_rows_are_positive ten_days 10 H1 H2 H3).
Defined.

Lemma unknown_name_is_a_no_op_witness :
  (metalsData loaded_page = Some sample_data /\
   metals sample_data = Some sample_metals /\
   sample_metals !! "silver" = None /\
   Object_prototype "silver" = None /\
   sample_metals !! "gold" = Some gold /\
   gold <> []) /\
  updateDisplay zone_Kolkata loaded_page "silver" = Returned loaded_page /\
  exists p',
    updateDisplay zone_Kolkata
      (page_of (updateDisplay zone_Kolkata loaded_page "silver")) "gold"
      = Returned p' /\
    updateDisplay zone_Kolkata loaded_page "gold" = Returned p' /\
    performance_body p' = performanceRows gold.
Proof.
  assert (H1 : metalsData loaded_page = Some sample_data) by reflexivity.
  assert (H2 : metals sample_data = Some sample_metals) by reflexivity.
  assert (H3 : sample_metals !! "silver" = None) by reflexivity.
  assert (H4 : Object_prototype "silver" = None) by reflexivity.
  assert (H5 : sample_metals !! "gold" = Some gold) by reflexivity.
  assert (H6 : gold <> []) by discriminate.
  split; [now repeat split|].
  destruct (unknown_name_is_a_no_op zone_Kolkata loaded_page sample_data
              sample_metals "silver" H1 H2 H3 H4) as (Hsilent & Hlater).
  split; [exact Hsilent|].
  exact (Hlater "gold" gold H5 H6).
Defined.
